(** * Route Options API: a shallow embedding of [main.py]

    The service asks an OSRM routing engine for alternative driving routes,
    annotates every candidate with fuel consumption and cost, scores it by
    the caller's preference and answers with the candidates ordered by
    score.  Two diagnostic operations report the address of the engine and
    count the routes it finds between two fixed places.

    Python [float]s are IEEE 754 binary64 numbers: they are modelled by the
    primitive [float] type, whose operations round to nearest, ties to even,
    like CPython's.  Parsed JSON documents are modelled by [json]; a Python
    [dict] is a [gmap] with string keys.  The only effect of the program is
    the HTTP request to the routing engine: it is modelled by a state that
    records the requests issued, and by an oracle [upstream] giving the
    outcome of a request.

    A call of a handler ends when the handler returns its response model or
    raises: how the framework then renders the model as an HTTP response is
    not part of [main.py] and is not modelled. *)

From Stdlib Require Import ZArith Floats.
From stdpp Require Import base strings gmap list sorting pretty.

Set Warnings "-register-all,-inexact-float".

Local Open Scope float_scope.
Local Open Scope Z_scope.

(** ** Python values and exceptions *)

(** What [json.loads] returns: [None], [bool], [int], [float], [str],
    [list] and [dict]. *)
Inductive json : Type :=
| JNull
| JBool (b : bool)
| JInt (z : Z)
| JFloat (f : float)
| JStr (s : string)
| JList (l : list json)
| JDict (d : gmap string json).

(** The exceptions that leave a handler.  [HTTPException] is FastAPI's;
    [RequestValidationError] is raised by the framework when the request
    body violates the constraints of its model (it is answered with status
    422); [Unhandled] stands for every other Python exception ([KeyError],
    [TypeError], [AttributeError], [OverflowError], pydantic's
    [ValidationError]), which the framework answers with status 500. *)
Inductive exn : Type :=
| HTTPException (status_code : Z) (detail : string)
| RequestValidationError
| Unhandled.

Inductive result (A : Type) : Type :=
| Ok (a : A)
| Raise (e : exn).
Arguments Ok {A} a.
Arguments Raise {A} e.

(** Exceptions propagate: [x ← r; k] runs [k] when [r] returned. *)
#[global] Instance result_bind : MBind result := fun A B f r =>
  match r with
  | Ok a => f a
  | Raise e => Raise e
  end.

(** ** Configuration (module level constants read from the environment) *)

Record Config := {
  OSRM_BASE_URL : string;
  DEFAULT_FUEL_L_PER_100KM : float;
  DEFAULT_FUEL_PRICE_PER_LITER : Z
}.

(** ** Models *)

Record LatLng := { lat : float; lng : float }.

Record VehicleConfig := { fuel_l_per_100km : float }.

Record RouteOptionsRequest := {
  origin : LatLng;
  destination : LatLng;
  preference : string;
  k : Z;
  fuel_price_per_liter : Z;
  vehicle : VehicleConfig
}.

Record RouteOption := {
  id_ : string;
  distance_km : float;
  duration_min : float;
  fuel_liters : float;
  fuel_cost_cop : float;
  score : float;
  geojson : gmap string json
}.

Record RouteOptionsResponse := {
  resp_preference : string;
  requested : Z;
  returned : Z;
  routes : list RouteOption
}.

(** *** Constraints of the request models

    [confloat(ge=a, le=b)], [confloat(gt=a, le=b)] and [conint(ge=a, le=b)]
    are read as the comparisons they name; a NaN satisfies none of them. *)

Definition confloat_ge_le (a b v : float) : bool :=
  (a <=? v)%float && (v <=? b)%float.

Definition confloat_gt_le (a b v : float) : bool :=
  (a <? v)%float && (v <=? b)%float.

Definition conint_ge_le (a b v : Z) : bool :=
  (a <=? v) && (v <=? b).

Definition Preference (s : string) : bool :=
  bool_decide (s = "FASTEST") || bool_decide (s = "LOW_FUEL")
  || bool_decide (s = "CHEAPEST") || bool_decide (s = "SHORT_DISTANCE").

Definition LatLng_valid (p : LatLng) : bool :=
  confloat_ge_le (-90) 90 (lat p) && confloat_ge_le (-180) 180 (lng p).

(** The body of a POST to [/route-options], before validation: the fields
    with a default may be absent.  A vehicle may be present without its
    [fuel_l_per_100km]. *)
Record RouteOptionsBody := {
  body_origin : LatLng;
  body_destination : LatLng;
  body_preference : option string;
  body_k : option Z;
  body_fuel_price_per_liter : option Z;
  body_vehicle : option (option float)
}.

(** Validation of a field that has a default: the default is taken as it
    is, a given value is checked. *)
Definition field {A} (check : A -> bool) (dflt : A) (given : option A)
  : result A :=
  match given with
  | None => Ok dflt
  | Some v => if check v then Ok v else Raise RequestValidationError
  end.

Definition required {A} (check : A -> bool) (given : A) : result A :=
  if check given then Ok given else Raise RequestValidationError.

Definition parse_VehicleConfig (cfg : Config) (given : option float)
  : result VehicleConfig :=
  r ← field (confloat_gt_le 0 50) (DEFAULT_FUEL_L_PER_100KM cfg) given;
  Ok {| fuel_l_per_100km := r |}.

Definition parse_RouteOptionsRequest (cfg : Config) (b : RouteOptionsBody)
  : result RouteOptionsRequest :=
  o ← required LatLng_valid (body_origin b);
  d ← required LatLng_valid (body_destination b);
  p ← field Preference "FASTEST"%string (body_preference b);
  n ← field (conint_ge_le 1 5) 3 (body_k b);
  c ← field (conint_ge_le 0 200000) (DEFAULT_FUEL_PRICE_PER_LITER cfg)
         (body_fuel_price_per_liter b);
  v ← match body_vehicle b with
       | None => parse_VehicleConfig cfg None
       | Some given => parse_VehicleConfig cfg given
       end;
  Ok {| origin := o; destination := d; preference := p; k := n;
        fuel_price_per_liter := c; vehicle := v |}.

(** ** Helpers *)

Definition estimate_fuel (distance_km fuel_l_per_100km : float) : float :=
  ((distance_km * fuel_l_per_100km) / 100.0)%float.

Definition score_route (pref : string)
  (distance_km duration_min fuel_liters fuel_cost : float) : float :=
  if bool_decide (pref = "FASTEST") then duration_min
  else if bool_decide (pref = "SHORT_DISTANCE") then distance_km
  else if bool_decide (pref = "LOW_FUEL") then fuel_liters
  else if bool_decide (pref = "CHEAPEST") then fuel_cost
  else duration_min.

(** ** The Python operations the handlers use *)

(** [int] to [float]: the nearest binary64 number, ties to even;
    [OverflowError] when the integer is too large. *)
Definition float_of_int (z : Z) : result float :=
  match binary_normalize prec emax z 0 false with
  | S754_infinity _ => Raise Unhandled
  | x => Ok (SF2Prim x)
  end.

(** The operand of an arithmetic operation whose other operand is a
    [float]: a [bool] is an [int]; anything else than a number is a
    [TypeError]. *)
Definition as_float (v : json) : result float :=
  match v with
  | JFloat f => Ok f
  | JInt z => float_of_int z
  | JBool b => Ok (if b then 1 else 0)%float
  | _ => Raise Unhandled
  end.

(** [v / d] for a float literal [d] other than zero. *)
Definition truediv (v : json) (d : float) : result float :=
  x ← as_float v; Ok (x / d)%float.

(** [f * n] for a float [f] and an int [n]. *)
Definition mul_int (f : float) (n : Z) : result float :=
  x ← float_of_int n; Ok (f * x)%float.

(** [v[key]] for a string [key]: [KeyError] on a dict without the key,
    [TypeError] on anything else. *)
Definition getitem (v : json) (key : string) : result json :=
  match v with
  | JDict d =>
      match d !! key with
      | Some x => Ok x
      | None => Raise Unhandled
      end
  | _ => Raise Unhandled
  end.

(** [v.get(key, default)]: only a dict has the method. *)
Definition get (v : json) (key : string) (dflt : json) : result json :=
  match v with
  | JDict d => Ok (default dflt (d !! key))
  | _ => Raise Unhandled
  end.

(** Truth value of a Python object ([not v] is its negation). *)
Definition truthy (v : json) : bool :=
  match v with
  | JNull => false
  | JBool b => b
  | JInt z => negb (z =? 0)
  | JFloat f => negb (f =? 0)%float
  | JStr s => negb (bool_decide (s = ""%string))
  | JList l => negb (bool_decide (l = []))
  | JDict d => negb (bool_decide (d = ∅))
  end.

(** The stop index of the slice [l[:n]] of a sequence of length [len]: a
    negative [n] counts from the end. *)
Definition slice_stop (len : nat) (n : Z) : nat :=
  if n <? 0 then Z.to_nat (Z.of_nat len + n) else Z.to_nat n.

(** The items [for rt in v[:n]] iterates over: a list gives its first
    items, a string its first characters; nothing else can be sliced. *)
Definition slice_items (v : json) (n : Z) : result (list json) :=
  match v with
  | JList l => Ok (take (slice_stop (length l) n) l)
  | JStr s =>
      let cs := String.list_ascii_of_string s in
      Ok ((fun c => JStr (String c "")) <$> take (slice_stop (length cs) n) cs)
  | _ => Raise Unhandled
  end.

(** *** [round(x, ndigits)] for a float [x] and [ndigits >= 0]

    CPython rounds the exact value of [x] to [ndigits] decimal places,
    ties to even, and returns the float nearest to that decimal number; a
    NaN or an infinity is returned as it is. *)

Definition round_half_even (num den : Z) : Z :=
  let q := num `div` den in
  match 2 * (num `mod` den) ?= den with
  | Lt => q
  | Eq => if Z.even q then q else q + 1
  | Gt => q + 1
  end.

Definition py_round (x : float) (ndigits : N) : float :=
  match Prim2SF x with
  | S754_finite s m e =>
      if (323 <? ndigits)%N then x else
      let p := 10 ^ Z.of_N ndigits in
      let n := match e with
               | Zneg _ => round_half_even (Zpos m * p) (2 ^ (- e))
               | _ => Zpos m * p * 2 ^ e
               end in
      match n with
      | Zpos n' =>
          SF2Prim (SFdiv prec emax (S754_finite s n' 0)
                     (S754_finite false (Z.to_pos p) 0))
      | _ => SF2Prim (S754_zero s)
      end
  | _ => x
  end.

(** *** [l.sort(key=...)]

    Python's sort is stable and compares keys with [<] only.  It is
    modelled by a stable insertion sort: an item is put before the first
    item of the sorted rest whose key is not less than its own.  On keys
    without NaN every stable sort returns the same list
    (proved below).  With a NaN among the keys the result
    depends on the algorithm; whatever the algorithm, it is a permutation of
    the list, and on the sample [nan_routes] Python's sort, which finds the
    three keys to be one ascending run, leaves the list as it is, like the
    insertion sort. *)

Fixpoint insort {A} (key : A -> float) (x : A) (l : list A) : list A :=
  match l with
  | [] => [x]
  | y :: l' =>
      if (key y <? key x)%float then y :: insort key x l' else x :: l
  end.

Definition list_sort {A} (key : A -> float) (l : list A) : list A :=
  foldr (insort key) [] l.

(** ** Ranking the candidates *)

(** The body of the [for] loop of [route_options]: the option built from
    the candidate [rt], numbered [idx].  The last step is the validation
    of [geojson: Dict[str, Any]] by the model. *)
Definition route_option (req : RouteOptionsRequest) (idx : nat) (rt : json)
  : result RouteOption :=
  distance ← getitem rt "distance";
  dist_km ← truediv distance 1000;
  duration ← getitem rt "duration";
  dur_min ← truediv duration 60;
  let fuel_l := estimate_fuel dist_km (fuel_l_per_100km (vehicle req)) in
  fuel_cost ← mul_int fuel_l (fuel_price_per_liter req);
  let sc := score_route (preference req) dist_km dur_min fuel_l fuel_cost in
  geometry ← getitem rt "geometry";
  match geometry with
  | JDict g =>
      Ok {| id_ := "r" +:+ pretty idx;
            distance_km := py_round dist_km 3;
            duration_min := py_round dur_min 1;
            fuel_liters := py_round fuel_l 3;
            fuel_cost_cop := py_round fuel_cost 0;
            score := sc;
            geojson := g |}
  | _ => Raise Unhandled
  end.

(** The loop [for idx, rt in enumerate(items, start=idx)]. *)
Fixpoint route_option_loop (req : RouteOptionsRequest) (idx : nat)
  (items : list json) : result (list RouteOption) :=
  match items with
  | [] => Ok []
  | rt :: items' =>
      o ← route_option req idx rt;
      out ← route_option_loop req (S idx) items';
      Ok (o :: out)
  end.

(** What [route_options] does with the document the engine returned. *)
Definition rank_routes (req : RouteOptionsRequest) (data : json)
  : result RouteOptionsResponse :=
  routes ← get data "routes" (JList []);
  if negb (truthy routes)
  then Raise (HTTPException 404 "No se encontraron rutas")
  else
    items ← slice_items routes (k req);
    out ← route_option_loop req 1 items;
    let out := list_sort score out in
    Ok {| resp_preference := preference req;
          requested := k req;
          returned := Z.of_nat (length out);
          routes := out |}.

(** ** The routing engine *)

(** The GET request [osrm_get_routes] issues.  The URL is
    [{base}/route/v1/driving/{lng},{lat};{lng},{lat}]: it is kept as its
    parts, the coordinates in the order they are written. *)
Record request := {
  url_base : string;
  url_path : string;
  url_coordinates : list float;
  params : list (string * string);
  timeout : Z
}.

(** What the [try] block of [osrm_get_routes] does: it raises, or it
    returns the parsed body.  An exception is of class [requests.ConnectionError]
    (which has the subclasses [ProxyError], [SSLError] and
    [ConnectTimeout]), of another class below [requests.RequestException]
    ([HTTPError] from [raise_for_status], [ReadTimeout],
    [TooManyRedirects], the [JSONDecodeError] of [r.json()], ...), or of a
    class the function does not catch.  [str_e] is [str(e)]. *)
Inductive raised : Type :=
| ConnectionError (str_e : string)
| RequestException (str_e : string)
| OtherException.

Inductive outcome : Type :=
| Raises (e : raised)
| Returns (body : json).

(** A handler runs in a state: the requests issued so far, oldest first. *)
Definition IO (A : Type) : Type := list request -> result A * list request.

#[global] Instance IO_bind : MBind IO := fun A B f m log =>
  match m log with
  | (Ok a, log') => f a log'
  | (Raise e, log') => (Raise e, log')
  end.

(** A computation without effect. *)
Definition pure {A} (r : result A) : IO A := fun log => (r, log).

Section App.
Variable cfg : Config.
(** The outcome of a request to the routing engine. *)
Variable upstream : request -> outcome.

(** The [try] block: [requests.get(url, params=params, timeout=20)],
    [r.raise_for_status()] and [r.json()].  One request is issued,
    whatever its outcome. *)
Definition fetch_json (rq : request) : IO outcome :=
  fun log => (Ok (upstream rq), log ++ [rq]).

(** The request of [osrm_get_routes]: [url], [params] and [timeout]. *)
Definition osrm_request (origin dest : LatLng) : request :=
  {| url_base := OSRM_BASE_URL cfg;
     url_path := "/route/v1/driving/";
     url_coordinates := [lng origin; lat origin; lng dest; lat dest];
     params := [("alternatives", "true"); ("overview", "full");
                ("geometries", "geojson"); ("steps", "false")]%string;
     timeout := 20 |}.

Definition osrm_get_routes (origin dest : LatLng) : IO json :=
  r ← fetch_json (osrm_request origin dest);
  pure match r with
       | Returns body => Ok body
       | Raises (ConnectionError _) =>
           Raise (HTTPException 502
                    ("No hay conexión con OSRM en " +:+ OSRM_BASE_URL cfg
                     +:+ ". Verifica que OSRM esté activo."))
       | Raises (RequestException e) =>
           Raise (HTTPException 502 ("OSRM error: " +:+ e))
       | Raises OtherException => Raise Unhandled
       end.

Definition route_options (req : RouteOptionsRequest)
  : IO RouteOptionsResponse :=
  data ← osrm_get_routes (origin req) (destination req);
  pure (rank_routes req data).

(** The operation [POST /route-options]: the framework validates the body
    against [RouteOptionsRequest] and calls the handler with the model. *)
Definition post_route_options (body : RouteOptionsBody)
  : IO RouteOptionsResponse :=
  req ← pure (parse_RouteOptionsRequest cfg body);
  route_options req.
End App.

(** ** The diagnostic operations *)

(** A [str] is held as its UTF-8 encoding: a code point begins at every
    byte that is not a continuation byte [10xxxxxx]. *)
Definition continuation_byte (c : Ascii.ascii) : bool :=
  let n := Ascii.N_of_ascii c in (128 <=? n)%N && (n <? 192)%N.

(** [len(v)]: the number of items of a list, of keys of a dict, of code
    points of a string; a [TypeError] on anything else. *)
Definition len (v : json) : result Z :=
  match v with
  | JList l => Ok (Z.of_nat (length l))
  | JDict d => Ok (Z.of_nat (size d))
  | JStr s =>
      Ok (Z.of_nat (length (List.filter (fun c => negb (continuation_byte c))
                              (String.list_ascii_of_string s))))
  | _ => Raise Unhandled
  end.

Section Diagnostics.
Variable cfg : Config.
Variable upstream : request -> outcome.

(** The operation [GET /health]. *)
Definition health : IO json :=
  pure (Ok (JDict {[ "ok" := JBool true;
                     "api" := JStr "Route Options API";
                     "osrm_base_url" := JStr (OSRM_BASE_URL cfg) ]})).

(** The operation [GET /osrm-test].  The two [LatLng] are built from
    constants that satisfy the constraints of the model. *)
Definition osrm_test : IO json :=
  let origin := {| lat := 2.4448; lng := -76.6147 |} in
  let dest := {| lat := 2.4550; lng := -76.5980 |} in
  data ← osrm_get_routes cfg upstream origin dest;
  pure (routes ← get data "routes" (JList []);
        routes_found ← len routes;
        Ok (JDict {[ "ok" := JBool true;
                     "routes_found" := JInt routes_found ]})).
End Diagnostics.

(** ** Vocabulary of the statements *)

(** The error of an empty answer. *)
Definition not_found : exn := HTTPException 404 "No se encontraron rutas".

(** [a] may stand before [b] in ascending order of [key]. *)
Definition key_le {A} (key : A -> float) (a b : A) : Prop :=
  (key a <=? key b)%float = true.

(** The scores of [l] are in ascending order. *)
Definition ascending (l : list RouteOption) : Prop :=
  StronglySorted (key_le score) l.

(** The options of [l] whose score equals [s], in the order of [l]. *)
Definition with_score (s : float) (l : list RouteOption) : list RouteOption :=
  List.filter (fun o => score o =? s)%float l.

(** [v] lies outside [[lo, hi]]. *)
Definition outside (lo hi v : float) : Prop :=
  (v <? lo)%float = true \/ (hi <? v)%float = true.

Definition LatLng_out_of_range (p : LatLng) : Prop :=
  outside (-90) 90 (lat p) \/ outside (-180) 180 (lng p).

(** A coordinate or the count [k] of the body is out of its range. *)
Definition out_of_range (b : RouteOptionsBody) : Prop :=
  LatLng_out_of_range (body_origin b) \/
  LatLng_out_of_range (body_destination b) \/
  exists n, body_k b = Some n /\ (n < 1 \/ 5 < n).

(** A field the body gives violates the constraint of its model. *)
Definition violates (b : RouteOptionsBody) : Prop :=
  LatLng_valid (body_origin b) = false \/
  LatLng_valid (body_destination b) = false \/
  (exists p, body_preference b = Some p /\ Preference p = false) \/
  (exists n, body_k b = Some n /\ ~ 1 <= n <= 5) \/
  (exists c, body_fuel_price_per_liter b = Some c /\ ~ 0 <= c <= 200000) \/
  (exists r, body_vehicle b = Some (Some r) /\ confloat_gt_le 0 50 r = false).

(** The defaults of the configuration satisfy the constraints of the
    fields they stand for. *)
Definition Config_valid (cfg : Config) : Prop :=
  confloat_gt_le 0 50 (DEFAULT_FUEL_L_PER_100KM cfg) = true /\
  0 <= DEFAULT_FUEL_PRICE_PER_LITER cfg <= 200000.

(** The request the engine is sent for the body [b]. *)
Definition request_of (cfg : Config) (b : RouteOptionsBody) : request :=
  osrm_request cfg (body_origin b) (body_destination b).

(** The request the engine is sent by [GET /osrm-test]. *)
Definition osrm_test_request (cfg : Config) : request :=
  osrm_request cfg {| lat := 2.4448; lng := -76.6147 |}
    {| lat := 2.4550; lng := -76.5980 |}.

(** The body [b] with another preference, or none. *)
Definition with_preference (p : option string) (b : RouteOptionsBody)
  : RouteOptionsBody :=
  {| body_origin := body_origin b; body_destination := body_destination b;
     body_preference := p; body_k := body_k b;
     body_fuel_price_per_liter := body_fuel_price_per_liter b;
     body_vehicle := body_vehicle b |}.

(** The body [b] asking for [n] routes. *)
Definition with_k (n : Z) (b : RouteOptionsBody) : RouteOptionsBody :=
  {| body_origin := body_origin b; body_destination := body_destination b;
     body_preference := body_preference b; body_k := Some n;
     body_fuel_price_per_liter := body_fuel_price_per_liter b;
     body_vehicle := body_vehicle b |}.

(** The identifier of the candidate numbered [idx]. *)
Definition route_id (idx : nat) : string := "r" +:+ pretty idx.

(** What an option says of its route, the score apart. *)
Definition figures (o : RouteOption) :=
  (id_ o, distance_km o, duration_min o, fuel_liters o, fuel_cost_cop o,
   geojson o).

(** The candidate is not a dict, or lacks the distance, the duration or
    the geometry. *)
Definition incomplete (rt : json) : Prop :=
  forall c, rt = JDict c ->
    c !! "distance" = None \/ c !! "duration" = None \/ c !! "geometry" = None.

(** A number the arithmetic of the handler takes: a float, a bool, or an
    int below [2^1023] in absolute value ([float] fails on an int from
    about [2^1024] on). *)
Definition number (v : json) : Prop :=
  match v with
  | JFloat _ | JBool _ => True
  | JInt z => Z.abs z < 2 ^ 1023
  | _ => False
  end.

(** The candidate has a distance, a duration and a geometry of the types
    the handler expects. *)
Definition complete (rt : json) : Prop :=
  exists c distance duration g,
    rt = JDict c /\
    c !! "distance" = Some distance /\ number distance /\
    c !! "duration" = Some duration /\ number duration /\
    c !! "geometry" = Some (JDict g).

(** A float that is finite, or an int below [2^53] in absolute value. *)
Definition finite_number (v : json) : Prop :=
  match v with
  | JFloat f => is_finite f = true
  | JInt z => Z.abs z < 2 ^ 53
  | _ => True
  end.

(** The distance and the duration of the candidate, where it has them,
    are finite. *)
Definition finite_candidate (rt : json) : Prop :=
  forall c v, rt = JDict c ->
    c !! "distance" = Some v \/ c !! "duration" = Some v -> finite_number v.

(** A float or an int that is not negative. *)
Definition nonneg_number (v : json) : Prop :=
  match v with
  | JFloat f => (0 <=? f)%float = true
  | JInt z => 0 <= z
  | _ => True
  end.

(** The distance and the duration of the candidate, where it has them,
    are not negative. *)
Definition nonneg_candidate (rt : json) : Prop :=
  forall c v, rt = JDict c ->
    c !! "distance" = Some v \/ c !! "duration" = Some v -> nonneg_number v.

(** ** Sample calls *)

Definition sample_cfg : Config :=
  {| OSRM_BASE_URL := "http://localhost:5000";
     DEFAULT_FUEL_L_PER_100KM := 7.5;
     DEFAULT_FUEL_PRICE_PER_LITER := 15000 |}.

Definition sample_body (pref : string) (n : Z) : RouteOptionsBody :=
  {| body_origin := {| lat := 2.4448; lng := -76.6147 |};
     body_destination := {| lat := 2.4550; lng := -76.5980 |};
     body_preference := Some pref;
     body_k := Some n;
     body_fuel_price_per_liter := None;
     body_vehicle := None |}.

Definition body_lat_91 : RouteOptionsBody :=
  {| body_origin := {| lat := 91; lng := -76.6147 |};
     body_destination := {| lat := 2.4550; lng := -76.5980 |};
     body_preference := None; body_k := None;
     body_fuel_price_per_liter := None; body_vehicle := None |}.

Definition candidate (distance duration : json) : json :=
  JDict {[ "distance" := distance; "duration" := duration;
           "geometry" := JDict {[ "type" := JStr "LineString" ]} ]}.

Definition engine_returns (routes : list json) : request -> outcome :=
  fun _ => Returns (JDict {[ "code" := JStr "Ok"; "routes" := JList routes ]}).

Definition engine_returns_no_routes_key : request -> outcome :=
  fun _ => Returns (JDict {[ "code" := JStr "NoRoute";
                             "message" := JStr "Impossible route" ]}).

Definition engine_raises (e : raised) : request -> outcome :=
  fun _ => Raises e.

Definition three_routes : list json :=
  [candidate (JFloat 5120.4) (JInt 600); candidate (JFloat 6200.0) (JInt 720);
   candidate (JFloat 4890.1) (JFloat 541.5)].

Definition nan_routes : list json :=
  [candidate (JInt 5000) (JInt 120); candidate (JInt 5000) (JFloat nan);
   candidate (JInt 5000) (JInt 60)].

(** A configuration whose defaults are out of the range of their fields. *)
Definition misconfigured : Config :=
  {| OSRM_BASE_URL := "http://localhost:5000";
     DEFAULT_FUEL_L_PER_100KM := 100;
     DEFAULT_FUEL_PRICE_PER_LITER := -1 |}.

(** A body that gives the two places only. *)
Definition body_defaults : RouteOptionsBody :=
  {| body_origin := {| lat := 2.4448; lng := -76.6147 |};
     body_destination := {| lat := 2.4550; lng := -76.5980 |};
     body_preference := None; body_k := None;
     body_fuel_price_per_liter := None; body_vehicle := None |}.

(** A body that gives a price. *)
Definition body_price (pref : string) (price : Z) : RouteOptionsBody :=
  {| body_origin := {| lat := 2.4448; lng := -76.6147 |};
     body_destination := {| lat := 2.4550; lng := -76.5980 |};
     body_preference := Some pref; body_k := None;
     body_fuel_price_per_liter := Some price; body_vehicle := None |}.

Definition engine_returns_document (data : json) : request -> outcome :=
  fun _ => Returns data.

(** Three routes in ascending order of duration. *)
Definition ordered_routes : list json :=
  [candidate (JInt 4800) (JInt 540); candidate (JInt 5100) (JInt 600);
   candidate (JInt 6200) (JInt 720)].

(** A good route, and a route without geometry. *)
Definition broken_routes : list json :=
  [candidate (JInt 4800) (JInt 540);
   JDict {[ "distance" := JInt 5100; "duration" := JInt 600 ]}].

(** A short slow route, and a long fast one. *)
Definition crossing_routes : list json :=
  [candidate (JInt 4000) (JInt 700); candidate (JInt 5000) (JInt 500)].

(** ** The order of floats *)

(** A number's place in the order: its kind (infinities outermost), then
    exponent and mantissa, negated for negative numbers.  A NaN has none. *)
Definition SFrank (x : spec_float) : option (Z * Z * Z) :=
  match x with
  | S754_nan => None
  | S754_zero _ => Some (0, 0, 0)
  | S754_infinity s => Some (if s then -2 else 2, 0, 0)
  | S754_finite false m e => Some (1, e, Zpos m)
  | S754_finite true m e => Some (-1, - e, Zneg m)
  end.

Definition lex3 (a b : Z * Z * Z) : comparison :=
  match a.1.1 ?= b.1.1 with
  | Eq => match a.1.2 ?= b.1.2 with
          | Eq => a.2 ?= b.2
          | c => c
          end
  | c => c
  end.

Definition frank (x : float) : option (Z * Z * Z) := SFrank (Prim2SF x).

Ltac lex3_solve :=
  repeat match goal with
         | a : (Z * Z * Z)%type |- _ => destruct a as [[? ?] ?]
         end;
  unfold lex3 in *; cbn [fst snd] in *;
  repeat match goal with
         | H : context [?x ?= ?y] |- _ => destruct (Z.compare_spec x y)
         | |- context [?x ?= ?y] => destruct (Z.compare_spec x y)
         end; try lia; try congruence; try discriminate; auto.

(** ** Rounding to binary64 *)

(** Not a NaN, and not negative: what [0 <= x] says of a float. *)
Definition SFnonneg (x : spec_float) : bool :=
  match x with
  | S754_zero _ => true
  | S754_infinity s | S754_finite s _ _ => negb s
  | S754_nan => false
  end.

(** [binary_round_aux] up to its last step: the mantissa and the exponent
    it found. *)
Definition round_raw (m e : Z) (l : location) : Z * Z :=
  let '(r1, e1) := shr_fexp prec emax m e l in
  let '(r2, e2) :=
    shr_fexp prec emax
      (round_nearest_even (shr_m r1) (loc_of_shr_record r1)) e1 loc_Exact in
  (shr_m r2, e2).

(** Its last step: zero, a finite number, or an overflow. *)
Definition round_finish (s : bool) (p : Z * Z) : spec_float :=
  match p.1 with
  | Z0 => S754_zero s
  | Zpos m => if p.2 <=? emax - prec then S754_finite s m p.2
              else S754_infinity s
  | Zneg _ => S754_nan
  end.


(** A mantissa nothing was shifted out of. *)
Definition exact (m : Z) : shr_record :=
  {| shr_m := m; shr_r := false; shr_s := false |}.

(** The floats [2], [100] and [2^-1020], as mantissa and exponent. *)
Abbreviation c_two := (S754_finite false 4503599627370496 (-51)).
Abbreviation c_100 := (S754_finite false 7036874417766400 (-46)).
Abbreviation c_min := (S754_finite false 4503599627370496 (-1072)).

(** The sign of a number; a NaN has none. *)
Definition SFsigned (s : bool) (x : spec_float) : Prop :=
  match x with
  | S754_zero s' | S754_infinity s' | S754_finite s' _ _ => s' = s
  | S754_nan => False
  end.

(** Zero, or a finite number whose exponent is at most [b]. *)
Definition SFbelow (b : Z) (x : spec_float) : Prop :=
  match x with
  | S754_zero _ => True
  | S754_finite _ _ e => e <= b
  | _ => False
  end.

(** * Proofs *)

(** ** The order of floats *)

Lemma SFcompare_rank x y :
  SFcompare x y =
  match SFrank x, SFrank y with
  | Some a, Some b => Some (lex3 a b)
  | _, _ => None
  end.
Proof.
  destruct x as [[]|[]| |[] mx ex], y as [[]|[]| |[] my ey];
    try reflexivity; cbn [SFcompare SFrank]; unfold lex3; cbn [fst snd];
    f_equal.
  rewrite Z.compare_opp, (Z.compare_antisym ex ey).
  destruct (ex ?= ey); reflexivity.
Qed.

Lemma lex3_antisym a b : lex3 b a = CompOpp (lex3 a b).
Proof. lex3_solve. Qed.

Lemma lex3_le_trans a b c : lex3 a b <> Gt -> lex3 b c <> Gt -> lex3 a c <> Gt.
Proof. lex3_solve. Qed.

Lemma lex3_refl a : lex3 a a = Eq.
Proof. lex3_solve. Qed.

Lemma ltb_frank x y :
  (x <? y)%float = true <->
  exists a b, frank x = Some a /\ frank y = Some b /\ lex3 a b = Lt.
Proof.
  rewrite FloatAxioms.ltb_spec. unfold SFltb, frank. rewrite SFcompare_rank.
  destruct (SFrank (Prim2SF x)) as [a|], (SFrank (Prim2SF y)) as [b|];
    try (split; [discriminate|intros (?&?&?&?&?); discriminate]).
  split.
  - intros H. exists a, b. destruct (lex3 a b); try discriminate. auto.
  - intros (a'&b'&[= <-]&[= <-]&->). reflexivity.
Qed.

Lemma leb_frank x y :
  (x <=? y)%float = true <->
  exists a b, frank x = Some a /\ frank y = Some b /\ lex3 a b <> Gt.
Proof.
  rewrite FloatAxioms.leb_spec. unfold SFleb, frank. rewrite SFcompare_rank.
  destruct (SFrank (Prim2SF x)) as [a|], (SFrank (Prim2SF y)) as [b|];
    try (split; [discriminate|intros (?&?&?&?&?); discriminate]).
  split.
  - intros H. exists a, b. destruct (lex3 a b); try discriminate; auto.
  - intros (a'&b'&[= <-]&[= <-]&H). destruct (lex3 a b); congruence.
Qed.

Lemma eqb_frank x y :
  (x =? y)%float = true <->
  exists a b, frank x = Some a /\ frank y = Some b /\ lex3 a b = Eq.
Proof.
  rewrite FloatAxioms.eqb_spec. unfold SFeqb, frank. rewrite SFcompare_rank.
  destruct (SFrank (Prim2SF x)) as [a|], (SFrank (Prim2SF y)) as [b|];
    try (split; [discriminate|intros (?&?&?&?&?); discriminate]).
  split.
  - intros H. exists a, b. destruct (lex3 a b); try discriminate; auto.
  - intros (a'&b'&[= <-]&[= <-]&->). reflexivity.
Qed.

Lemma is_nan_frank x : is_nan x = false <-> exists a, frank x = Some a.
Proof.
  unfold is_nan. rewrite negb_false_iff, eqb_frank. split.
  - intros (a&_&H&_). eauto.
  - intros (a&H). exists a, a. auto using lex3_refl.
Qed.
Lemma ltb_leb_false x y : (x <? y)%float = true -> (y <=? x)%float = false.
Proof.
  intros (a&b&Ha&Hb&Hab)%ltb_frank. apply not_true_is_false.
  intros (b'&a'&Hb'&Ha'&Hba)%leb_frank.
  assert (a' = a) as -> by congruence. assert (b' = b) as -> by congruence.
  rewrite (lex3_antisym a b), Hab in Hba. by apply Hba.
Qed.

Lemma leb_ltb_false x y : (x <=? y)%float = true -> (y <? x)%float = false.
Proof.
  intros H. apply not_true_is_false. intros H'%ltb_leb_false. congruence.
Qed.

Lemma ltb_leb x y : (x <? y)%float = true -> (x <=? y)%float = true.
Proof.
  intros (a&b&Ha&Hb&Hab)%ltb_frank. apply leb_frank.
  exists a, b. rewrite Hab. done.
Qed.

Lemma leb_trans x y z :
  (x <=? y)%float = true -> (y <=? z)%float = true -> (x <=? z)%float = true.
Proof.
  intros (a&b&Ha&Hb&Hab)%leb_frank (b'&c&Hb'&Hc&Hbc)%leb_frank.
  assert (b' = b) as -> by congruence.
  apply leb_frank. exists a, c. eauto using lex3_le_trans.
Qed.

Lemma leb_total x y :
  is_nan x = false -> is_nan y = false ->
  (y <? x)%float = false -> (x <=? y)%float = true.
Proof.
  intros (a&Ha)%is_nan_frank (b&Hb)%is_nan_frank Hlt.
  apply leb_frank. exists a, b. split_and!; try done.
  intros Hgt. apply not_true_iff_false in Hlt. apply Hlt, ltb_frank.
  exists b, a. rewrite (lex3_antisym a b), Hgt. done.
Qed.

Lemma eqb_leb x y :
  (x =? y)%float = true <->
  (x <=? y)%float = true /\ (y <=? x)%float = true.
Proof.
  rewrite eqb_frank, !leb_frank. split.
  - intros (a&b&Ha&Hb&Hab). split; [exists a, b|exists b, a];
      rewrite ?(lex3_antisym a b), Hab; done.
  - intros [(a&b&Ha&Hb&Hab) (b'&a'&Hb'&Ha'&Hba)].
    assert (a' = a) as -> by congruence. assert (b' = b) as -> by congruence.
    exists a, b. split_and!; try done.
    rewrite (lex3_antisym a b) in Hba. by destruct (lex3 a b).
Qed.

Lemma ltb_eqb_false y a s :
  (y <? a)%float = true -> (a =? s)%float = true -> (y =? s)%float = false.
Proof.
  intros Hlt [Has _]%eqb_leb. apply not_true_is_false.
  intros [_ Hsy]%eqb_leb. apply ltb_leb_false in Hlt.
  rewrite (leb_trans _ _ _ Has Hsy) in Hlt. done.
Qed.

(** ** The sort *)

Section Sort.
Context {A : Type} (key : A -> float).

Lemma insort_perm x l : insort key x l ≡ₚ x :: l.
Proof.
  induction l as [|y l IH]; cbn; [done|].
  destruct (key y <? key x)%float; [|done].
  rewrite IH. apply Permutation_swap.
Qed.

Lemma list_sort_perm l : list_sort key l ≡ₚ l.
Proof.
  induction l as [|x l IH]; cbn; [done|].
  fold (list_sort key l). by rewrite insort_perm, IH.
Qed.

Lemma list_sort_length l : length (list_sort key l) = length l.
Proof. by rewrite list_sort_perm. Qed.

Lemma insort_sorted x l :
  is_nan (key x) = false -> Forall (fun y => is_nan (key y) = false) l ->
  StronglySorted (key_le key) l -> StronglySorted (key_le key) (insort key x l).
Proof.
  intros Hx Hl Hs. induction Hs as [|y l Hs IH Hy]; cbn.
  { repeat constructor. }
  apply Forall_cons in Hl as [Hny Hl].
  destruct (key y <? key x)%float eqn:Hlt.
  - constructor; [by apply IH|].
    rewrite insort_perm. constructor; [by apply ltb_leb|done].
  - assert (key_le key x y) as Hxy by by apply leb_total.
    constructor; [by constructor|].
    constructor; [done|].
    eapply Forall_impl; [exact Hy|]. intros z Hz.
    unfold key_le in *. eauto using leb_trans.
Qed.

Lemma list_sort_sorted l :
  Forall (fun y => is_nan (key y) = false) l ->
  StronglySorted (key_le key) (list_sort key l).
Proof.
  induction 1 as [|x l Hx Hl IH]; cbn; [constructor|].
  fold (list_sort key l). apply insort_sorted; try done.
  by rewrite list_sort_perm.
Qed.

Lemma insort_filter s x l :
  List.filter (fun y => key y =? s)%float (insort key x l)
  = List.filter (fun y => key y =? s)%float (x :: l).
Proof.
  induction l as [|y l IH]; [done|]. cbn [insort].
  destruct (key y <? key x)%float eqn:Hlt; [|done].
  cbn [List.filter] in *. rewrite IH.
  destruct (key x =? s)%float eqn:Hx; [|done].
  by rewrite (ltb_eqb_false _ _ _ Hlt Hx).
Qed.

Lemma list_sort_filter s l :
  List.filter (fun y => key y =? s)%float (list_sort key l)
  = List.filter (fun y => key y =? s)%float l.
Proof.
  induction l as [|x l IH]; [done|]. cbn [list_sort foldr].
  fold (list_sort key l). rewrite insort_filter. cbn. by rewrite IH.
Qed.
End Sort.

Section Unique.
Context {A : Type} (key : A -> float).

Lemma eqb_refl_not_nan x : is_nan x = false -> (x =? x)%float = true.
Proof. unfold is_nan. by intros ?%negb_false_iff. Qed.

Lemma sorted_stable_unique l1 l2 :
  Forall (fun y => is_nan (key y) = false) l1 ->
  Forall (fun y => is_nan (key y) = false) l2 ->
  StronglySorted (key_le key) l1 -> StronglySorted (key_le key) l2 ->
  (forall s, List.filter (fun y => key y =? s)%float l1 = List.filter (fun y => key y =? s)%float l2) -> l1 = l2.
Proof.
  intros Hn1. revert l2.
  induction Hn1 as [|a l1 Ha Hn1 IH]; intros l2 Hn2 Hs1 Hs2 Hsame.
  { destruct Hn2 as [|b l2 Hb _]; [done|].
    specialize (Hsame (key b)). cbn in Hsame.
    by rewrite eqb_refl_not_nan in Hsame. }
  destruct Hn2 as [|b l2 Hb Hn2].
  { specialize (Hsame (key a)). cbn in Hsame.
    by rewrite eqb_refl_not_nan in Hsame. }
  apply StronglySorted_inv in Hs1 as [Hs1 Hle1].
  apply StronglySorted_inv in Hs2 as [Hs2 Hle2].
  assert (key_le key a b) as Hab.
  { pose proof (Hsame (key b)) as H. cbn in H.
    rewrite (eqb_refl_not_nan _ Hb) in H.
    destruct (key a =? key b)%float eqn:E.
    - by apply eqb_leb in E as [? _].
    - assert (b ∈ List.filter (fun y => key y =? key b)%float l1) as Hin by (rewrite H; left).
      apply list_elem_of_In, filter_In in Hin as [Hin _].
      apply list_elem_of_In in Hin.
      by eapply (proj1 (Forall_forall _ _) Hle1). }
  assert (key_le key b a) as Hba.
  { pose proof (Hsame (key a)) as H. cbn in H.
    rewrite (eqb_refl_not_nan _ Ha) in H.
    destruct (key b =? key a)%float eqn:E.
    - by apply eqb_leb in E as [? _].
    - assert (a ∈ List.filter (fun y => key y =? key a)%float l2) as Hin by (rewrite <-H; left).
      apply list_elem_of_In, filter_In in Hin as [Hin _].
      apply list_elem_of_In in Hin.
      by eapply (proj1 (Forall_forall _ _) Hle2). }
  assert (a = b) as <-.
  { pose proof (Hsame (key a)) as H. cbn in H.
    rewrite (eqb_refl_not_nan _ Ha) in H.
    rewrite (proj2 (eqb_leb (key b) (key a)) (conj Hba Hab)) in H.
    by injection H. }
  f_equal. apply IH; try done. intros s. specialize (Hsame s).
  cbn in Hsame. destruct (key a =? s)%float; [by injection Hsame|done].
Qed.

(** Whatever a stable sort returns on keys without NaN, [list_sort]
    returns it. *)
Lemma list_sort_unique l sorted :
  Forall (fun y => is_nan (key y) = false) l ->
  sorted ≡ₚ l -> StronglySorted (key_le key) sorted ->
  (forall s, List.filter (fun y => key y =? s)%float sorted = List.filter (fun y => key y =? s)%float l) ->
  sorted = list_sort key l.
Proof.
  intros Hn Hp Hs Hsame. apply sorted_stable_unique; try done.
  - by rewrite Hp.
  - by rewrite list_sort_perm.
  - by apply list_sort_sorted.
  - intros s. rewrite list_sort_filter. apply Hsame.
Qed.
End Unique.

(** ** The loop and the handlers *)

(** ** The loop *)

Lemma bind_Ok {A B} (r : result A) (f : A -> result B) b :
  r ≫= f = Ok b <-> exists a, r = Ok a /\ f a = Ok b.
Proof.
  destruct r as [a|e]; cbn; split; try discriminate; eauto.
  - intros (a'&[= <-]&H). done.
  - intros (a'&[=]&_).
Qed.

Lemma route_option_loop_length req idx items out :
  route_option_loop req idx items = Ok out -> length out = length items.
Proof.
  revert idx out. induction items as [|rt items IH]; intros idx out; cbn.
  - by intros [= <-].
  - intros (o&_&(out'&Hout'&[= <-])%bind_Ok)%bind_Ok. cbn. eauto.
Qed.

Lemma route_option_loop_lookup req idx items out j rt :
  route_option_loop req idx items = Ok out -> items !! j = Some rt ->
  exists o, out !! j = Some o /\ route_option req (idx + j)%nat rt = Ok o.
Proof.
  revert idx out j. induction items as [|rt' items IH]; intros idx out j; cbn.
  { done. }
  intros (o&Ho&(out'&Hout'&[= <-])%bind_Ok)%bind_Ok Hj.
  destruct j as [|j]; cbn in *.
  - injection Hj as ->. exists o. by rewrite Nat.add_0_r.
  - destruct (IH _ _ _ Hout' Hj) as (o'&?&?). exists o'.
    by rewrite <-Nat.add_succ_comm.
Qed.

Lemma route_option_str req idx s : route_option req idx (JStr s) = Raise Unhandled.
Proof. done. Qed.

(** ** Inversion of a successful call *)

Lemma slice_stop_nonneg len n : 0 <= n -> slice_stop len n = Z.to_nat n.
Proof. unfold slice_stop. intros. by rewrite (proj2 (Z.ltb_ge n 0)). Qed.

Lemma rank_routes_Ok req data resp :
  1 <= k req -> rank_routes req data = Ok resp ->
  exists d rs built,
    data = JDict d /\ d !! "routes" = Some (JList rs) /\ rs <> [] /\
    route_option_loop req 1 (take (Z.to_nat (k req)) rs) = Ok built /\
    resp = {| resp_preference := preference req;
              requested := k req;
              returned := Z.of_nat (length (list_sort score built));
              routes := list_sort score built |}.
Proof.
  intros Hk. unfold rank_routes.
  intros (routes&Hget&H)%bind_Ok.
  destruct (truthy routes) eqn:Htruthy; cbn in H; [|done].
  apply bind_Ok in H as (items&Hitems&(built&Hbuilt&[= <-])%bind_Ok).
  destruct data as [| | | | | |d]; try done. cbn in Hget.
  destruct routes as [| | | |s|rs|]; try done; cbn in Hitems, Htruthy.
  - exfalso. injection Hitems as <-.
    rewrite slice_stop_nonneg in Hbuilt by lia.
    destruct s as [|c s]; [done|]. cbn in Hbuilt.
    destruct (Z.to_nat (k req)) eqn:E; [lia|]. done.
  - injection Hitems as <-. rewrite slice_stop_nonneg in Hbuilt by lia.
    exists d, rs, built. split_and!; try done.
    + destruct (d !! "routes") as [v|] eqn:E; cbn in Hget; [congruence|].
      injection Hget as <-. done.
    + intros ->. done.
Qed.

Lemma field_Ok {A} (check : A -> bool) dflt given v :
  field check dflt given = Ok v ->
  given = None /\ v = dflt \/ given = Some v /\ check v = true.
Proof.
  destruct given as [w|]; cbn.
  - destruct (check w) eqn:E; [|done]. intros [= <-]. auto.
  - intros [= <-]. auto.
Qed.

Lemma required_Ok {A} (check : A -> bool) given v :
  required check given = Ok v -> v = given /\ check given = true.
Proof. unfold required. destruct (check given); [|done]. by intros [= <-]. Qed.

Lemma parse_RouteOptionsRequest_Ok cfg body req :
  parse_RouteOptionsRequest cfg body = Ok req ->
  origin req = body_origin body /\ destination req = body_destination body /\
  LatLng_valid (origin req) = true /\ LatLng_valid (destination req) = true /\
  1 <= k req <= 5 /\
  (body_k body = None /\ k req = 3 \/ body_k body = Some (k req)).
Proof.
  unfold parse_RouteOptionsRequest.
  intros (o&[-> Ho]%required_Ok&(d&[-> Hd]%required_Ok&(p&Hp&(n&Hn&(c&Hc&(v&Hv&[= <-])
    %bind_Ok)%bind_Ok)%bind_Ok)%bind_Ok)%bind_Ok)%bind_Ok.
  cbn. split_and!; try done;
    apply field_Ok in Hn as [[? ->]|[? Hn]]; try lia; auto;
    unfold conint_ge_le in Hn; lia.
Qed.

Section AppFacts.
Variable cfg : Config.
Variable upstream : request -> outcome.

Lemma osrm_get_routes_log o d log :
  (osrm_get_routes cfg upstream o d log).2 = log ++ [osrm_request cfg o d].
Proof.
  unfold osrm_get_routes, fetch_json, mbind, IO_bind, pure.
  by destruct (upstream _) as [[]|].
Qed.

Lemma route_options_eq req log :
  route_options cfg upstream req log =
  match osrm_get_routes cfg upstream (origin req) (destination req) log with
  | (Ok data, log') => (rank_routes req data, log')
  | (Raise e, log') => (Raise e, log')
  end.
Proof. done. Qed.

Lemma post_route_options_eq body log :
  post_route_options cfg upstream body log =
  match parse_RouteOptionsRequest cfg body with
  | Ok req => route_options cfg upstream req log
  | Raise e => (Raise e, log)
  end.
Proof. done. Qed.

Lemma post_route_options_Ok body log resp log' :
  post_route_options cfg upstream body log = (Ok resp, log') ->
  exists req data,
    parse_RouteOptionsRequest cfg body = Ok req /\
    osrm_get_routes cfg upstream (origin req) (destination req) log
      = (Ok data, log') /\
    rank_routes req data = Ok resp.
Proof.
  rewrite post_route_options_eq.
  destruct (parse_RouteOptionsRequest cfg body) as [req|]; [|done].
  rewrite route_options_eq.
  destruct (osrm_get_routes _ _ _ _ _) as [[data|] log''] eqn:Hfetch;
    [|done].
  intros [= Hr <-]. by exists req, data.
Qed.
End AppFacts.

Section AppFacts2.
Variable cfg : Config.
Variable upstream : request -> outcome.

Lemma osrm_get_routes_Ok o d log data log' :
  osrm_get_routes cfg upstream o d log = (Ok data, log') <->
  upstream (osrm_request cfg o d) = Returns data /\
  log' = log ++ [osrm_request cfg o d].
Proof.
  unfold osrm_get_routes, fetch_json, mbind, IO_bind, pure.
  destruct (upstream _) as [[]|body]; split; try done;
    try (by intros [? _]).
  - by intros [= -> <-].
  - by intros [[= ->] ->].
Qed.

Lemma post_route_options_Returns body req d log :
  parse_RouteOptionsRequest cfg body = Ok req ->
  upstream (osrm_request cfg (origin req) (destination req))
    = Returns (JDict d) ->
  post_route_options cfg upstream body log =
  (rank_routes req (JDict d),
   log ++ [osrm_request cfg (origin req) (destination req)]).
Proof.
  intros Hparse Hup. rewrite post_route_options_eq, Hparse, route_options_eq.
  by rewrite (proj2 (osrm_get_routes_Ok _ _ log (JDict d) _) (conj Hup eq_refl)).
Qed.

Lemma post_route_options_Ok' body log resp log' :
  post_route_options cfg upstream body log = (Ok resp, log') ->
  exists req d rs built,
    parse_RouteOptionsRequest cfg body = Ok req /\
    upstream (osrm_request cfg (origin req) (destination req))
      = Returns (JDict d) /\
    d !! "routes" = Some (JList rs) /\ rs <> [] /\ 1 <= k req <= 5 /\
    route_option_loop req 1 (take (Z.to_nat (k req)) rs) = Ok built /\
    routes resp = list_sort score built /\
    requested resp = k req /\
    returned resp = Z.of_nat (length (list_sort score built)).
Proof.
  intros (req&data&Hparse&Hfetch&Hrank)%post_route_options_Ok.
  pose proof (parse_RouteOptionsRequest_Ok _ _ _ Hparse) as (_&_&_&_&Hk&_).
  apply rank_routes_Ok in Hrank as (d&rs&built&->&Hd&Hrs&Hloop&->); [|lia].
  apply osrm_get_routes_Ok in Hfetch as [Hup _].
  by exists req, d, rs, built.
Qed.
End AppFacts2.

Lemma route_option_Ok req idx rt o :
  route_option req idx rt = Ok o ->
  exists distance duration dist_km dur_min fuel_l fuel_cost g,
    getitem rt "distance" = Ok distance /\ truediv distance 1000 = Ok dist_km /\
    getitem rt "duration" = Ok duration /\ truediv duration 60 = Ok dur_min /\
    fuel_l = estimate_fuel dist_km (fuel_l_per_100km (vehicle req)) /\
    mul_int fuel_l (fuel_price_per_liter req) = Ok fuel_cost /\
    getitem rt "geometry" = Ok (JDict g) /\
    o = {| id_ := "r" +:+ pretty idx;
           distance_km := py_round dist_km 3;
           duration_min := py_round dur_min 1;
           fuel_liters := py_round fuel_l 3;
           fuel_cost_cop := py_round fuel_cost 0;
           score := score_route (preference req) dist_km dur_min fuel_l fuel_cost;
           geojson := g |}.
Proof.
  unfold route_option.
  intros (distance&?&(dist_km&?&(duration&?&(dur_min&?&(fuel_cost&?&
    (geometry&?&H)%bind_Ok)%bind_Ok)%bind_Ok)%bind_Ok)%bind_Ok)%bind_Ok.
  destruct geometry as [| | | | | |g]; try done. injection H as <-.
  by eexists distance, duration, dist_km, dur_min, _, fuel_cost, g.
Qed.

Lemma route_option_loop_elem req rs n built o :
  route_option_loop req 1 (take n rs) = Ok built -> o ∈ built ->
  exists j rt, (j < n)%nat /\ rs !! j = Some rt /\ built !! j = Some o /\
    route_option req (S j) rt = Ok o.
Proof.
  intros Hloop (j&Hj)%list_elem_of_lookup_1.
  pose proof (route_option_loop_length _ _ _ _ Hloop) as Hlen.
  assert (j < length (take n rs))%nat as Hlt.
  { rewrite <-Hlen. by eapply lookup_lt_Some. }
  destruct (lookup_lt_is_Some_2 _ _ Hlt) as [rt Hrt].
  destruct (route_option_loop_lookup _ _ _ _ _ _ Hloop Hrt) as (o'&Ho'&Hro).
  assert (o' = o) as -> by congruence.
  apply lookup_take_Some in Hrt as [Hrt ?]. by exists j, rt.
Qed.

Lemma rank_routes_empty req d :
  d !! "routes" = Some (JList []) -> rank_routes req (JDict d) = Raise not_found.
Proof. unfold rank_routes. cbn. by intros ->. Qed.

Lemma rank_routes_missing req d :
  d !! "routes" = None -> rank_routes req (JDict d) = Raise not_found.
Proof. unfold rank_routes. cbn. by intros ->. Qed.

Lemma bind_Raise {A B} (r : result A) (f : A -> result B) e :
  r ≫= f = Raise e -> r = Raise e \/ exists a, r = Ok a /\ f a = Raise e.
Proof. destruct r as [a|e']; cbn; [eauto|]. intros [= ->]. auto. Qed.

Lemma field_Raise {A} (check : A -> bool) dflt given e :
  field check dflt given = Raise e -> e = RequestValidationError.
Proof.
  destruct given as [v|]; cbn; [|done]. destruct (check v); [done|].
  by intros [= <-].
Qed.

Lemma required_Raise {A} (check : A -> bool) given e :
  required check given = Raise e -> e = RequestValidationError.
Proof. unfold required. destruct (check given); [done|]. by intros [= <-]. Qed.

Lemma parse_RouteOptionsRequest_Raise cfg body e :
  parse_RouteOptionsRequest cfg body = Raise e -> e = RequestValidationError.
Proof.
  unfold parse_RouteOptionsRequest, parse_VehicleConfig.
  intros H.
  repeat (apply bind_Raise in H as [H|(?&_&H)];
          [by eauto using @field_Raise, @required_Raise|]).
  apply bind_Raise in H as [H|(?&_&?)]; [|done].
  destruct (body_vehicle body) as [given|];
    apply bind_Raise in H as [H|(?&_&?)]; eauto using @field_Raise; done.
Qed.

Lemma outside_not_between lo hi v :
  outside lo hi v -> confloat_ge_le lo hi v = false.
Proof.
  unfold confloat_ge_le.
  intros [H%ltb_leb_false|H%ltb_leb_false]; rewrite H;
    [done|by rewrite andb_false_r].
Qed.

Lemma LatLng_out_of_range_invalid p :
  LatLng_out_of_range p -> LatLng_valid p = false.
Proof.
  unfold LatLng_valid.
  intros [H%outside_not_between|H%outside_not_between]; rewrite H;
    [done|by rewrite andb_false_r].
Qed.

(** ** Signs of products and quotients *)

Lemma le0_nonneg x : (0 <=? x)%float = SFnonneg (Prim2SF x).
Proof.
  rewrite FloatAxioms.leb_spec. change (Prim2SF 0) with (S754_zero false).
  by destruct (Prim2SF x) as [[]|[]| |[] ? ?].
Qed.

Lemma lt0_positive x :
  (0 <? x)%float = true ->
  Prim2SF x = S754_infinity false \/
  exists m e, Prim2SF x = S754_finite false m e.
Proof.
  rewrite FloatAxioms.ltb_spec. change (Prim2SF 0) with (S754_zero false).
  destruct (Prim2SF x) as [[]|[]| |[] ? ?]; try done; eauto.
Qed.

Lemma lt_infinity x :
  (x <? infinity)%float = true ->
  Prim2SF x <> S754_nan /\ Prim2SF x <> S754_infinity false.
Proof.
  rewrite FloatAxioms.ltb_spec.
  change (Prim2SF infinity) with (S754_infinity false).
  by destruct (Prim2SF x) as [[]|[]| |[] ? ?].
Qed.

Lemma shr_1_nonneg r : 0 <= shr_m r -> 0 <= shr_m (shr_1 r).
Proof. destruct r as [[|[]|[]] ? ?]; cbn; lia. Qed.

Lemma iter_pos_invariant {A} (P : A -> Prop) (f : A -> A) :
  (forall x, P x -> P (f x)) -> forall n x, P x -> P (SpecFloat.iter_pos f n x).
Proof. intros Hf n. induction n; cbn; auto. Qed.

Lemma shr_fexp_nonneg m e l :
  0 <= m -> 0 <= shr_m (shr_fexp prec emax m e l).1.
Proof.
  intros Hm. unfold shr_fexp, shr.
  assert (0 <= shr_m (shr_record_of_loc m l)) by by destruct l as [|[]].
  destruct (fexp _ _ _ - e); cbn; try done.
  by apply (iter_pos_invariant (fun r => 0 <= shr_m r)), H; apply shr_1_nonneg.
Qed.

Lemma round_nearest_even_nonneg m l : 0 <= m -> 0 <= round_nearest_even m l.
Proof. destruct l as [|[]]; cbn; try case_match; lia. Qed.

Lemma binary_round_aux_sign s m e l :
  0 <= m ->
  match binary_round_aux prec emax s m e l with
  | S754_zero s' | S754_infinity s' | S754_finite s' _ _ => s' = s
  | S754_nan => False
  end.
Proof.
  intros Hm. unfold binary_round_aux.
  pose proof (shr_fexp_nonneg m e l Hm) as H1.
  destruct (shr_fexp prec emax m e l) as [r1 e1]. cbn [fst] in H1.
  pose proof (shr_fexp_nonneg _ e1 loc_Exact
                (round_nearest_even_nonneg _ (loc_of_shr_record r1) H1)) as H2.
  destruct (shr_fexp prec emax _ e1 loc_Exact) as [r2 e2]. cbn [fst] in H2.
  destruct (shr_m r2); [done| |lia]. by destruct (e2 <=? _).
Qed.

Lemma SFmul_nonneg x m e :
  SFnonneg x = true ->
  SFnonneg (SF64mul x (S754_finite false m e)) = true.
Proof.
  destruct x as [s|s| |s mx ex]; try done; cbn.
  - intros ->%negb_true_iff. done.
  - intros ->%negb_true_iff. cbn.
    pose proof (binary_round_aux_sign false (Zpos (mx * m)) (ex + e) loc_Exact
                  ltac:(done)) as H.
    destruct (binary_round_aux _ _ _ _ _ _); cbn; try done; by subst.
Qed.

Lemma SFdiv_core_binary_nonneg m1 e1 m2 e2 :
  0 <= (SFdiv_core_binary prec emax (Zpos m1) e1 (Zpos m2) e2).1.1.
Proof.
  unfold SFdiv_core_binary.
  set (s := _ - _ - _). set (m' := match s with Z0 => _ | _ => _ end).
  assert (0 <= m').
  { subst m'. destruct s; try done. apply Z.shiftl_nonneg. done. }
  pose proof (Z_div_mod m' (Zpos m2) eq_refl) as Hdiv.
  destruct (Z.div_eucl m' (Zpos m2)) as [q r]. cbn. nia.
Qed.

Lemma SFdiv_nonneg x m e :
  SFnonneg x = true ->
  SFnonneg (SF64div x (S754_finite false m e)) = true.
Proof.
  destruct x as [s|s| |s mx ex]; try done; cbn.
  - intros ->%negb_true_iff. done.
  - intros ->%negb_true_iff. unfold SF64div, SFdiv.
    pose proof (SFdiv_core_binary_nonneg mx ex m e) as Hq.
    destruct (SFdiv_core_binary _ _ _ _ _ _) as [[q e'] l]. cbn in Hq.
    pose proof (binary_round_aux_sign (xorb false false) q e' l Hq) as H.
    destruct (binary_round_aux _ _ _ _ _ _); cbn; try done; by subst.
Qed.

Lemma estimate_fuel_nonneg d r :
  (0 <=? d)%float = true -> (0 <? r)%float = true ->
  (r <? infinity)%float = true ->
  (0 <=? estimate_fuel d r)%float = true.
Proof.
  rewrite !le0_nonneg. intros Hd Hr [_ Hfin]%lt_infinity.
  apply lt0_positive in Hr as [?|(m&e&Hr)]; [done|].
  unfold estimate_fuel. rewrite FloatAxioms.div_spec, FloatAxioms.mul_spec, Hr.
  change (Prim2SF 100) with (S754_finite false 7036874417766400 (-46)).
  by apply SFdiv_nonneg, SFmul_nonneg.
Qed.

Lemma binary_round_aux_raw s m e l :
  binary_round_aux prec emax s m e l = round_finish s (round_raw m e l).
Proof.
  unfold binary_round_aux, round_raw, round_finish.
  destruct (shr_fexp prec emax m e l) as [r1 e1].
  by destruct (shr_fexp prec emax _ e1 loc_Exact) as [r2 e2].
Qed.

Lemma fexp_eq x : fexp prec emax x = Z.max (x - 53) (-1074).
Proof. reflexivity. Qed.

Lemma digits2_pos_bounds p :
  2 ^ (Zpos (digits2_pos p) - 1) <= Zpos p < 2 ^ Zpos (digits2_pos p).
Proof.
  induction p as [p IH|p IH|]; cbn [digits2_pos].
  - rewrite Pos2Z.inj_succ, Z.pow_succ_r by lia.
    replace (Z.succ (Zpos (digits2_pos p)) - 1) with
      (Z.succ (Zpos (digits2_pos p) - 1)) by lia.
    rewrite Z.pow_succ_r by lia. lia.
  - rewrite Pos2Z.inj_succ, Z.pow_succ_r by lia.
    replace (Z.succ (Zpos (digits2_pos p)) - 1) with
      (Z.succ (Zpos (digits2_pos p) - 1)) by lia.
    rewrite Z.pow_succ_r by lia. lia.
  - cbn. lia.
Qed.

Lemma Zdigits2_nonneg m : 0 <= Zdigits2 m.
Proof. by destruct m. Qed.

Lemma Zdigits2_le m n : 0 <= m -> 0 <= n -> m < 2 ^ n -> Zdigits2 m <= n.
Proof.
  intros Hm Hn Hlt. destruct m as [|p|p]; [done| |lia]. cbn.
  pose proof (digits2_pos_bounds p) as [Hlo _].
  destruct (Z.le_gt_cases (Zpos (digits2_pos p)) n) as [|Hgt]; [done|].
  assert (2 ^ n <= 2 ^ (Zpos (digits2_pos p) - 1))
    by (apply Z.pow_le_mono_r; lia).
  lia.
Qed.

Lemma Zdigits2_lt m : 0 <= m -> m < 2 ^ Zdigits2 m.
Proof.
  intros Hm. destruct m as [|p|p]; [done| |lia]. apply digits2_pos_bounds.
Qed.

Lemma Zdigits2_ge p : 2 ^ (Zdigits2 (Zpos p) - 1) <= Zpos p.
Proof. apply digits2_pos_bounds. Qed.

(** Shifting right is division by a power of two. *)
Lemma shr_1_div2 r : 0 <= shr_m r -> shr_m (shr_1 r) = shr_m r / 2.
Proof.
  destruct r as [[|[p|p|]|] ? ?]; try done; cbn [shr_1 shr_m]; intros _.
  - rewrite Pos2Z.inj_xI. apply Z.div_unique with 1; lia.
  - rewrite Pos2Z.inj_xO. apply Z.div_unique with 0; lia.
Qed.

Lemma iter_shr_1_div p r :
  0 <= shr_m r -> shr_m (SpecFloat.iter_pos shr_1 p r) = shr_m r / 2 ^ Zpos p.
Proof.
  assert (Hinv : forall n x, 0 <= shr_m x -> 0 <= shr_m (SpecFloat.iter_pos shr_1 n x)).
  { intros n x. apply (iter_pos_invariant (fun r => 0 <= shr_m r)).
    apply shr_1_nonneg. }
  revert r. induction p as [p IH|p IH|]; intros r Hr; cbn [SpecFloat.iter_pos].
  - rewrite !IH, shr_1_div2 by auto using shr_1_nonneg.
    rewrite !Z.div_div by lia. f_equal.
    replace (Zpos p~1) with (1 + Zpos p + Zpos p) by lia.
    rewrite !Z.pow_add_r by lia. lia.
  - rewrite !IH by auto. rewrite !Z.div_div by lia. f_equal.
    replace (Zpos p~0) with (Zpos p + Zpos p) by lia.
    rewrite !Z.pow_add_r by lia. lia.
  - by rewrite shr_1_div2.
Qed.

Lemma shr_record_of_loc_m m l : shr_m (shr_record_of_loc m l) = m.
Proof. by destruct l as [|[]]. Qed.

Lemma shr_fexp_exp m e l :
  (shr_fexp prec emax m e l).2 = Z.max (fexp prec emax (Zdigits2 m + e)) e.
Proof.
  unfold shr_fexp, shr.
  destruct (fexp prec emax (Zdigits2 m + e) - e) eqn:E; cbn [snd]; lia.
Qed.

Lemma shr_fexp_m m e l :
  0 <= m ->
  shr_m (shr_fexp prec emax m e l).1 = m / 2 ^ ((shr_fexp prec emax m e l).2 - e).
Proof.
  intros Hm. unfold shr_fexp, shr.
  destruct (fexp prec emax (Zdigits2 m + e) - e) eqn:E; cbn [fst snd].
  - by rewrite Z.sub_diag, Z.div_1_r, shr_record_of_loc_m.
  - rewrite iter_shr_1_div, shr_record_of_loc_m
      by by rewrite shr_record_of_loc_m.
    do 2 f_equal. lia.
  - by rewrite Z.sub_diag, Z.div_1_r, shr_record_of_loc_m.
Qed.


Lemma round_nearest_even_bounds m l :
  m <= round_nearest_even m l <= m + 1.
Proof. destruct l as [|[]]; cbn; try case_match; lia. Qed.


Lemma Zdigits2_unique m n :
  0 < n -> 2 ^ (n - 1) <= m < 2 ^ n -> Zdigits2 m = n.
Proof.
  intros Hn [Hlo Hhi].
  assert (0 < m) by (pose proof (Z.pow_pos_nonneg 2 (n - 1)); lia).
  apply Z.le_antisymm; [apply Zdigits2_le; lia|].
  destruct m as [|p|p]; try lia.
  pose proof (Zdigits2_lt (Zpos p) ltac:(done)) as H1.
  destruct (Z.le_gt_cases n (Zdigits2 (Zpos p))) as [|Hgt]; [done|].
  assert (2 ^ Zdigits2 (Zpos p) <= 2 ^ (n - 1))
    by (apply Z.pow_le_mono_r; lia).
  lia.
Qed.

Lemma Zdigits2_mul_pow2 p n :
  0 <= n -> Zdigits2 (Zpos p * 2 ^ n) = Zdigits2 (Zpos p) + n.
Proof.
  intros Hn. pose proof (Zdigits2_ge p). pose proof (Zdigits2_lt (Zpos p)).
  assert (0 < Zdigits2 (Zpos p)) by done.
  apply Zdigits2_unique; [lia|].
  replace (Zdigits2 (Zpos p) + n - 1) with (Zdigits2 (Zpos p) - 1 + n) by lia.
  rewrite !Z.pow_add_r by lia.
  pose proof (Z.pow_pos_nonneg 2 n). nia.
Qed.

Lemma Zdigits2_mul a b :
  0 <= a -> 0 <= b -> Zdigits2 (a * b) <= Zdigits2 a + Zdigits2 b.
Proof.
  intros Ha Hb. pose proof (Zdigits2_nonneg a). pose proof (Zdigits2_nonneg b).
  apply Zdigits2_le; [nia|lia|].
  rewrite Z.pow_add_r by lia.
  pose proof (Zdigits2_lt a Ha). pose proof (Zdigits2_lt b Hb). nia.
Qed.

(** The exponent found is at most one above the exponent aimed at. *)
Lemma round_raw_exp_bound m e l m' e' :
  0 <= m -> round_raw m e l = (m', e') ->
  e' <= Z.max (fexp prec emax (Zdigits2 m + e)) e + 1.
Proof.
  intros Hm. unfold round_raw.
  pose proof (shr_fexp_exp m e l) as He1.
  pose proof (shr_fexp_m m e l Hm) as Hm1.
  pose proof (shr_fexp_nonneg m e l Hm) as Hm1'.
  destruct (shr_fexp prec emax m e l) as [r1 e1]. cbn [fst snd] in *.
  set (m2 := round_nearest_even (shr_m r1) (loc_of_shr_record r1)) in *.
  pose proof (round_nearest_even_bounds (shr_m r1) (loc_of_shr_record r1))
    as Hm2. fold m2 in Hm2.
  pose proof (shr_fexp_exp m2 e1 loc_Exact) as He2.
  destruct (shr_fexp prec emax m2 e1 loc_Exact) as [r2 e2].
  cbn [fst snd] in *. intros [= <- <-].
  rewrite fexp_eq in *.
  set (t := Z.max (Zdigits2 m + e - e1) 0).
  assert (shr_m r1 < 2 ^ t).
  { rewrite Hm1. pose proof (Zdigits2_nonneg m).
    pose proof (Zdigits2_lt m Hm).
    destruct (Z.le_gt_cases e1 e).
    - assert (e1 = e) as -> by lia. rewrite !Z.sub_diag, Z.div_1_r.
      replace t with (Zdigits2 m) by lia. done.
    - apply Z.div_lt_upper_bound; [apply Z.pow_pos_nonneg; lia|].
      rewrite <-Z.pow_add_r by lia.
      eapply Z.lt_le_trans; [done|]. apply Z.pow_le_mono_r; lia. }
  assert (Zdigits2 m2 <= t + 1).
  { apply Zdigits2_le; [lia..|]. rewrite Z.pow_add_r by lia. lia. }
  lia.
Qed.







Lemma shr_fexp_unfold m e l :
  shr_fexp prec emax m e l =
  shr (shr_record_of_loc m l) e (Z.max (Zdigits2 m + e - 53) (-1074) - e).
Proof. done. Qed.



(** ** Division, shifted by one binade *)



(** ** Products and quotients through [round_raw] *)

Lemma SFmul_finite s1 m1 e1 s2 m2 e2 :
  SF64mul (S754_finite s1 m1 e1) (S754_finite s2 m2 e2)
  = round_finish (xorb s1 s2) (round_raw (Zpos (m1 * m2)) (e1 + e2) loc_Exact).
Proof. apply binary_round_aux_raw. Qed.

Lemma SFdiv_finite s1 m1 e1 s2 m2 e2 :
  SF64div (S754_finite s1 m1 e1) (S754_finite s2 m2 e2)
  = round_finish (xorb s1 s2)
      (round_raw (SFdiv_core_binary prec emax (Zpos m1) e1 (Zpos m2) e2).1.1
         (SFdiv_core_binary prec emax (Zpos m1) e1 (Zpos m2) e2).1.2
         (SFdiv_core_binary prec emax (Zpos m1) e1 (Zpos m2) e2).2).
Proof.
  unfold SF64div, SFdiv.
  destruct (SFdiv_core_binary _ _ _ _ _ _) as [[q e'] l].
  apply binary_round_aux_raw.
Qed.

Lemma round_finish_finite s p s' m e :
  round_finish s p = S754_finite s' m e -> p = (Zpos m, e) /\ e <= 971 /\ s' = s.
Proof.
  destruct p as [[|q|q] e0]; unfold round_finish; cbn [fst snd]; try done.
  destruct (Z.leb_spec e0 (emax - prec)); [|done]. intros [= <- <- <-].
  split_and!; try done; unfold emax, prec in *; lia.
Qed.

Lemma round_finish_inf s p s' :
  round_finish s p = S754_infinity s' -> exists m, p.1 = Zpos m /\ 971 < p.2.
Proof.
  destruct p as [[|q|q] e0]; unfold round_finish; cbn [fst snd]; try done.
  destruct (Z.leb_spec e0 (emax - prec)); [done|]. intros _.
  exists q. split; [done|]. cbn [snd]. unfold emax, prec in *. lia.
Qed.

Lemma round_finish_pos s m e :
  round_finish s (Zpos m, e)
  = if e <=? 971 then S754_finite s m e else S754_infinity s.
Proof. done. Qed.

Lemma canonical_digits m e :
  canonical_mantissa prec emax m e = true ->
  -1074 <= e /\ Zpos (digits2_pos m) <= 53 /\
  (-1074 < e -> Zpos (digits2_pos m) = 53).
Proof.
  unfold canonical_mantissa. rewrite fexp_eq. intros ?%Z.eqb_eq. lia.
Qed.

Lemma valid_finite s m e :
  valid_binary (S754_finite s m e) = true ->
  canonical_mantissa prec emax m e = true /\ e <= 971.
Proof.
  cbn. unfold bounded. intros [? ?%Z.leb_le]%andb_true_iff. done.
Qed.

Lemma round_raw_nonneg m e l : 0 <= m -> 0 <= (round_raw m e l).1.
Proof.
  intros Hm. unfold round_raw.
  pose proof (shr_fexp_nonneg m e l Hm) as H1.
  destruct (shr_fexp prec emax m e l) as [r1 e1]. cbn [fst] in H1.
  pose proof (shr_fexp_nonneg _ e1 loc_Exact
                (round_nearest_even_nonneg _ (loc_of_shr_record r1) H1)) as H2.
  by destruct (shr_fexp prec emax _ e1 loc_Exact) as [r2 e2].
Qed.

Lemma round_raw_noshift m e :
  fexp prec emax (Zdigits2 (Zpos m) + e) <= e ->
  round_raw (Zpos m) e loc_Exact = (Zpos m, e).
Proof.
  rewrite fexp_eq. intros H. unfold round_raw. rewrite shr_fexp_unfold.
  unfold shr at 1. cbn [shr_record_of_loc].
  destruct (Z.max _ _ - e) eqn:E; try lia;
    cbn [shr_m loc_of_shr_record round_nearest_even];
    rewrite shr_fexp_unfold; unfold shr; rewrite E; done.
Qed.




Lemma SFmul_inf_finite m e :
  SF64mul (S754_infinity false) (S754_finite false m e) = S754_infinity false.
Proof. done. Qed.





(** ** The model at work *)

(** [round]: ties go to the even neighbour, of the exact binary value. *)
Example py_round_examples :
  py_round 0.5 0 = 0%float /\ py_round 1.5 0 = 2%float /\
  py_round 2.5 0 = 2%float /\ py_round 2.675 2 = 2.67%float /\
  py_round 0.125 2 = 0.12%float /\ py_round 1234.5678 3 = 1234.568%float /\
  py_round (-0.0004) 3 = neg_zero /\ py_round nan 1 = nan /\
  py_round infinity 3 = infinity.
Proof. repeat split; reflexivity. Qed.

(** [float(n)]: the nearest float, or [OverflowError]. *)
Example float_of_int_examples :
  float_of_int 15000 = Ok 15000%float /\
  float_of_int (2 ^ 53 + 1) = Ok 9007199254740992%float /\
  float_of_int (2 ^ 53 + 3) = Ok 9007199254740996%float /\
  float_of_int (2 ^ 1024) = Raise Unhandled.
Proof. repeat split; reflexivity. Qed.

(** The sort keeps the order of equal keys. *)
Example list_sort_example :
  list_sort snd [("a", 2); ("b", 1); ("c", 2); ("d", 1)]%float
  = [("b", 1); ("d", 1); ("a", 2); ("c", 2)]%float.
Proof. reflexivity. Qed.

(** Three routes of durations 600 s, 720 s and 540 s, the fastest three
    asked for: they are answered in the order of the durations 540, 600,
    720. *)
Example durations_600_720_540 :
  exists resp log',
    post_route_options sample_cfg
      (engine_returns [candidate (JFloat 5120.4) (JInt 600);
                       candidate (JFloat 6200.0) (JInt 720);
                       candidate (JFloat 4890.1) (JInt 540)])
      (sample_body "FASTEST" 3) [] = (Ok resp, log') /\
    returned resp = 3 /\
    (fun o => (id_ o, duration_min o)) <$> routes resp
    = [("r3"%string, 9); ("r1"%string, 10); ("r2"%string, 12)]%float.
Proof. eexists _, _. split; [vm_compute; reflexivity|]. by split. Qed.

(** A call issues no request, or one. *)
Lemma post_route_options_requests cfg upstream body log :
  (post_route_options cfg upstream body log).2 = log \/
  exists rq, (post_route_options cfg upstream body log).2 = log ++ [rq].
Proof.
  rewrite post_route_options_eq.
  destruct (parse_RouteOptionsRequest cfg body) as [req|e]; [|by left].
  right. exists (osrm_request cfg (origin req) (destination req)).
  rewrite route_options_eq.
  pose proof (osrm_get_routes_log cfg upstream (origin req) (destination req)
                log) as H.
  by destruct (osrm_get_routes _ _ _ _ _) as [[data|e] log'].
Qed.

(** On keys without NaN a stable sort has one possible result: an
    application to three floats. *)
Lemma list_sort_unique_witness :
  [1; 2; 3]%float = list_sort (fun x => x) [2; 1; 3]%float.
Proof.
  apply list_sort_unique.
  - by repeat constructor.
  - apply Permutation_swap.
  - by repeat constructor.
  - intros s. cbn.
    destruct (1 =? s)%float eqn:E1, (2 =? s)%float eqn:E2; try done.
    by rewrite (ltb_eqb_false 1 2 s) in E1.
Defined.

(** * The claims *)

(** C1 (amended): a successful response holds the options built from
    the first [min k N] routes of the engine, numbered in the engine's
    order before any reordering.  When no score is a NaN the response is
    in ascending order of score, and options of equal score keep the
    engine's order: for every score [s], the options of score [s] come in
    the response as they come in the list that was built. *)
Theorem first_K_then_stable_sort cfg upstream body log resp log' :
  post_route_options cfg upstream body log = (Ok resp, log') ->
  exists req d rs built,
    parse_RouteOptionsRequest cfg body = Ok req /\
    upstream (osrm_request cfg (origin req) (destination req))
      = Returns (JDict d) /\
    d !! "routes" = Some (JList rs) /\
    Z.of_nat (length built) = Z.min (k req) (Z.of_nat (length rs)) /\
    (forall j o, built !! j = Some o ->
       exists rt, rs !! j = Some rt /\ route_option req (S j) rt = Ok o) /\
    routes resp ≡ₚ built /\
    (Forall (fun o => is_nan (score o) = false) (routes resp) ->
     ascending (routes resp) /\
     forall s, with_score s (routes resp) = with_score s built).
Proof.
  intros (req&d&rs&built&?&?&?&?&?&Hloop&->&_)%post_route_options_Ok'.
  exists req, d, rs, built. split_and!; try done.
  - rewrite (route_option_loop_length _ _ _ _ Hloop), length_take. lia.
  - intros j o Hj.
    pose proof (route_option_loop_length _ _ _ _ Hloop) as Hlen.
    assert (j < length (take (Z.to_nat (k req)) rs))%nat as Hlt.
    { rewrite <-Hlen. by eapply lookup_lt_Some. }
    destruct (lookup_lt_is_Some_2 _ _ Hlt) as [rt Hrt].
    destruct (route_option_loop_lookup _ _ _ _ _ _ Hloop Hrt) as (o'&Ho'&Hro).
    assert (o' = o) as -> by congruence.
    apply lookup_take_Some in Hrt as [Hrt _]. by exists rt.
  - apply list_sort_perm.
  - intros Hnan. split.
    + apply list_sort_sorted. by rewrite <-(list_sort_perm score built).
    + intros s. apply list_sort_filter.
Qed.

(** The third route is the fastest, and it is not among the first two. *)
Lemma first_K_then_stable_sort_witness :
  exists resp log',
    post_route_options sample_cfg (engine_returns three_routes)
      (sample_body "FASTEST" 2) [] = (Ok resp, log') /\
    (fun o => (id_ o, score o)) <$> routes resp
      = [("r1"%string, 10); ("r2"%string, 12)]%float /\
    ascending (routes resp).
Proof.
  eexists _, _. split; [vm_compute; reflexivity|]. split; [reflexivity|].
  edestruct (first_K_then_stable_sort sample_cfg (engine_returns three_routes)
               (sample_body "FASTEST" 2) [])
    as (req&d&rs&built&_&_&_&_&_&_&H); [vm_compute; reflexivity|].
  apply H. repeat constructor.
Defined.

(** C1 as stated fails when a score is a NaN: the engine returns three
    routes of durations 120 s, NaN and 60 s; the call succeeds and answers
    with the scores 2, NaN, 1 in this order, the first route before the
    third, whose score is smaller. *)
Lemma ascending_fails_on_nan_score :
  exists resp log',
    post_route_options sample_cfg (engine_returns nan_routes)
      (sample_body "FASTEST" 3) [] = (Ok resp, log') /\
    (fun o => (id_ o, score o)) <$> routes resp
      = [("r1"%string, 2); ("r2"%string, nan); ("r3"%string, 1)]%float /\
    ~ ascending (routes resp).
Proof.
  eexists _, _. split; [vm_compute; reflexivity|]. split; [reflexivity|].
  intros H. apply StronglySorted_inv in H as [_ H].
  apply Forall_cons in H as [_ H]. apply Forall_cons in H as [H _].
  cbv in H. discriminate.
Qed.

(** C2: in a successful response of [POST /route-options], [returned]
    is the minimum of the requested [k] and the number of routes the engine
    returned, [requested] is [k], and [routes] has [returned] items. *)
Theorem returned_is_min_requested_available cfg upstream body log resp log' :
  post_route_options cfg upstream body log = (Ok resp, log') ->
  exists req d rs,
    parse_RouteOptionsRequest cfg body = Ok req /\
    upstream (osrm_request cfg (origin req) (destination req))
      = Returns (JDict d) /\
    d !! "routes" = Some (JList rs) /\
    returned resp = Z.min (k req) (Z.of_nat (length rs)) /\
    requested resp = k req /\
    Z.of_nat (length (routes resp)) = returned resp.
Proof.
  intros (req&d&rs&built&?&?&?&?&?&Hloop&->&->&->)%post_route_options_Ok'.
  exists req, d, rs. split_and!; try done.
  rewrite list_sort_length, (route_option_loop_length _ _ _ _ Hloop).
  rewrite length_take. lia.
Qed.

(** Two of three routes are asked for. *)
Lemma returned_is_min_requested_available_witness :
  exists resp log',
    post_route_options sample_cfg (engine_returns three_routes)
      (sample_body "FASTEST" 2) [] = (Ok resp, log') /\
    returned resp = 2 /\
    exists req d rs,
      parse_RouteOptionsRequest sample_cfg (sample_body "FASTEST" 2) = Ok req /\
      engine_returns three_routes
        (osrm_request sample_cfg (origin req) (destination req))
        = Returns (JDict d) /\
      d !! "routes" = Some (JList rs) /\
      returned resp = Z.min (k req) (Z.of_nat (length rs)) /\
      requested resp = k req /\
      Z.of_nat (length (routes resp)) = returned resp.
Proof.
  eexists _, _. split; [vm_compute; reflexivity|]. split; [reflexivity|].
  eapply (returned_is_min_requested_available sample_cfg
            (engine_returns three_routes) (sample_body "FASTEST" 2) []).
  vm_compute. reflexivity.
Defined.

(** C3: when the fetch succeeds and the list of routes is empty the
    operation fails with the error 404, after its one request; and no call
    whatever returns a response whose [routes] is empty. *)
Theorem empty_route_list_is_not_found cfg upstream body log req d :
  parse_RouteOptionsRequest cfg body = Ok req ->
  upstream (osrm_request cfg (origin req) (destination req))
    = Returns (JDict d) ->
  d !! "routes" = Some (JList []) ->
  post_route_options cfg upstream body log =
    (Raise (HTTPException 404 "No se encontraron rutas"),
     log ++ [osrm_request cfg (origin req) (destination req)])
  /\ forall upstream' body' log0 resp log1,
       post_route_options cfg upstream' body' log0 = (Ok resp, log1) ->
       routes resp <> [].
Proof.
  intros Hparse Hup Hd. split.
  - rewrite (post_route_options_Returns _ _ _ _ _ _ Hparse Hup).
    by rewrite rank_routes_empty.
  - intros upstream' body' log0 resp log1
      (req'&d'&rs&built&?&?&?&Hrs&?&Hloop&->&_)%post_route_options_Ok'.
    intros Hnil%(f_equal length). rewrite list_sort_length in Hnil.
    rewrite (route_option_loop_length _ _ _ _ Hloop), length_take in Hnil.
    destruct rs; [done|]. cbn in Hnil. lia.
Qed.

Lemma empty_route_list_is_not_found_witness :
  post_route_options sample_cfg (engine_returns []) (sample_body "FASTEST" 3) []
  = (Raise (HTTPException 404 "No se encontraron rutas"),
     [osrm_request sample_cfg (body_origin (sample_body "FASTEST" 3))
        (body_destination (sample_body "FASTEST" 3))]).
Proof.
  edestruct (empty_route_list_is_not_found sample_cfg (engine_returns [])
               (sample_body "FASTEST" 3) []) as [H _];
    [vm_compute; reflexivity..|exact H].
Defined.

(** C4: [score_route] returns the metric the preference selects:
    [duration_min] for FASTEST, [distance_km] for SHORT_DISTANCE,
    [fuel_liters] for LOW_FUEL, [fuel_cost] for CHEAPEST, and
    [duration_min] for any other preference. *)
Theorem score_route_selects_metric pref (d t f c : float) :
  score_route "FASTEST" d t f c = t /\
  score_route "SHORT_DISTANCE" d t f c = d /\
  score_route "LOW_FUEL" d t f c = f /\
  score_route "CHEAPEST" d t f c = c /\
  (Preference pref = false -> score_route pref d t f c = t).
Proof.
  split_and!; try done. unfold Preference, score_route.
  intros H. repeat case_bool_decide; try done; subst; done.
Qed.

Lemma score_route_selects_metric_witness :
  Preference "SCENIC" = false /\ score_route "SCENIC" 1 2 3 4 = 2%float.
Proof.
  split; [done|].
  by apply (score_route_selects_metric "SCENIC" 1 2 3 4).
Defined.

(** C5 (amended): for [d >= 0] and a finite [r > 0],
    [estimate_fuel d r] is [d * r / 100] in binary64 arithmetic, and it is
    [>= 0].  ([estimate_fuel] is a function from floats to floats: it has no
    effect and cannot fail.) *)
Theorem estimate_fuel_formula_nonneg (d r : float) :
  (0 <=? d)%float = true -> (0 <? r)%float = true ->
  (r <? infinity)%float = true ->
  estimate_fuel d r = (d * r / 100)%float /\
  (0 <=? estimate_fuel d r)%float = true.
Proof. intros. split; [done|by apply estimate_fuel_nonneg]. Qed.

Lemma estimate_fuel_formula_nonneg_witness :
  estimate_fuel 12.5 8 = 1%float /\ (0 <=? estimate_fuel 12.5 8)%float = true.
Proof.
  destruct (estimate_fuel_formula_nonneg 12.5 8) as [H1 H2];
    [reflexivity..|]. split; [exact H1|exact H2].
Defined.

(** C5 as stated fails for an infinite rate: [0 * inf] is a NaN, and a
    NaN is not [>= 0]. *)
Lemma estimate_fuel_nan :
  ((0 <=? 0) && (0 <? infinity))%float = true /\
  estimate_fuel 0 infinity = nan /\
  (0 <=? estimate_fuel 0 infinity)%float = false.
Proof. done. Qed.





(** C8: a body whose origin or destination has a latitude outside
    [[-90, 90]] or a longitude outside [[-180, 180]], or whose [k] is outside
    [[1, 5]], is rejected with a validation error, and no request has been
    issued: the log of requests is unchanged. *)
Theorem out_of_range_rejected_before_fetch cfg upstream body log :
  out_of_range body ->
  post_route_options cfg upstream body log = (Raise RequestValidationError, log).
Proof.
  intros Hout. rewrite post_route_options_eq.
  destruct (parse_RouteOptionsRequest cfg body) as [req|e] eqn:Hparse.
  - exfalso.
    apply parse_RouteOptionsRequest_Ok in Hparse as (Ho&Hd&Hvo&Hvd&Hk&Hbk).
    destruct Hout as [H|[H|(n&Hn&H)]].
    + apply LatLng_out_of_range_invalid in H. congruence.
    + apply LatLng_out_of_range_invalid in H. congruence.
    + destruct Hbk as [[? _]|?]; [congruence|]. assert (n = k req) by congruence.
      lia.
  - by rewrite (parse_RouteOptionsRequest_Raise _ _ _ Hparse).
Qed.

Lemma out_of_range_rejected_before_fetch_witness :
  out_of_range body_lat_91 /\
  out_of_range (sample_body "FASTEST" 6) /\
  post_route_options sample_cfg (engine_returns three_routes) body_lat_91 []
    = (Raise RequestValidationError, []) /\
  post_route_options sample_cfg (engine_returns three_routes)
    (sample_body "FASTEST" 6) [] = (Raise RequestValidationError, []).
Proof.
  assert (out_of_range body_lat_91) as H1.
  { left. left. right. vm_compute. reflexivity. }
  assert (out_of_range (sample_body "FASTEST" 6)) as H2.
  { right. right. exists 6. split; [reflexivity|right; reflexivity]. }
  split_and!.
  - exact H1.
  - exact H2.
  - exact (out_of_range_rejected_before_fetch _ _ _ _ H1).
  - exact (out_of_range_rejected_before_fetch _ _ _ _ H2).
Defined.




(** C10: when the fetch succeeds and the document has no key [routes]
    the operation fails with the error 404 (not 502), and the caller sees
    what it sees when the engine returns the same document with an empty
    list of routes. *)
Theorem missing_routes_key_is_not_found cfg upstream body log req d :
  parse_RouteOptionsRequest cfg body = Ok req ->
  upstream (osrm_request cfg (origin req) (destination req))
    = Returns (JDict d) ->
  d !! "routes" = None ->
  post_route_options cfg upstream body log =
    (Raise (HTTPException 404 "No se encontraron rutas"),
     log ++ [osrm_request cfg (origin req) (destination req)])
  /\ forall upstream',
       upstream' (osrm_request cfg (origin req) (destination req))
         = Returns (JDict (<["routes" := JList []]> d)) ->
       post_route_options cfg upstream' body log =
       post_route_options cfg upstream body log.
Proof.
  intros Hparse Hup Hd.
  rewrite (post_route_options_Returns _ _ _ _ _ _ Hparse Hup).
  rewrite (rank_routes_missing _ _ Hd). split; [done|].
  intros upstream' Hup'.
  rewrite (post_route_options_Returns _ _ _ _ _ _ Hparse Hup').
  by rewrite rank_routes_empty by apply lookup_insert_eq.
Qed.

Lemma missing_routes_key_is_not_found_witness :
  post_route_options sample_cfg engine_returns_no_routes_key
    (sample_body "CHEAPEST" 3) []
  = (Raise (HTTPException 404 "No se encontraron rutas"),
     [osrm_request sample_cfg (body_origin (sample_body "CHEAPEST" 3))
        (body_destination (sample_body "CHEAPEST" 3))]).
Proof.
  edestruct (missing_routes_key_is_not_found sample_cfg
               engine_returns_no_routes_key (sample_body "CHEAPEST" 3) [])
    as [H _]; [vm_compute; reflexivity..|exact H].
Defined.

(** * Further properties of the operations *)

(** ** Validation of the body *)

Lemma field_dec {A} (check : A -> bool) dflt given :
  (exists v, field check dflt given = Ok v /\ v = default dflt given /\
             (given = None \/ check v = true)) \/
  (exists v, given = Some v /\ check v = false /\
             field check dflt given = Raise RequestValidationError).
Proof.
  destruct given as [v|]; cbn; [|left; eauto].
  destruct (check v) eqn:E; [left|right]; eauto.
Qed.

Lemma conint_ge_le_spec a b v : conint_ge_le a b v = true <-> a <= v <= b.
Proof. unfold conint_ge_le. lia. Qed.

Lemma conint_ge_le_false a b v : conint_ge_le a b v = false <-> ~ a <= v <= b.
Proof. rewrite <-conint_ge_le_spec. by destruct (conint_ge_le a b v). Qed.

Lemma parse_RouteOptionsRequest_dec cfg b :
  (~ violates b /\
   parse_RouteOptionsRequest cfg b =
   Ok {| origin := body_origin b; destination := body_destination b;
         preference := default "FASTEST"%string (body_preference b);
         k := default 3 (body_k b);
         fuel_price_per_liter :=
           default (DEFAULT_FUEL_PRICE_PER_LITER cfg)
             (body_fuel_price_per_liter b);
         vehicle := {| fuel_l_per_100km :=
           default (DEFAULT_FUEL_L_PER_100KM cfg) (mjoin (body_vehicle b)) |}
      |}) \/
  (violates b /\ parse_RouteOptionsRequest cfg b = Raise RequestValidationError).
Proof.
  unfold parse_RouteOptionsRequest, parse_VehicleConfig, required, field,
    violates.
  destruct b as [o d p n c v]; cbn.
  destruct (LatLng_valid o) eqn:Ho; [|right; split; [auto|done]].
  destruct (LatLng_valid d) eqn:Hd; [|right; split; [auto|done]].
  cbn.
  destruct p as [p|]; [destruct (Preference p) eqn:Hp|]; cbn;
    [|right; split; [eauto 10|done]|];
    (destruct n as [n|]; [destruct (conint_ge_le 1 5 n) eqn:Hn|]; cbn;
     [|apply conint_ge_le_false in Hn; right; split; [eauto 10|done]|]);
    (destruct c as [c|]; [destruct (conint_ge_le 0 200000 c) eqn:Hc|]; cbn;
     [|apply conint_ge_le_false in Hc; right; split; [eauto 10|done]|]);
    (destruct v as [[r|]|]; [destruct (confloat_gt_le 0 50 r) eqn:Hr| |]; cbn;
     [|right; split; [eauto 12|done]| |]);
    try apply conint_ge_le_spec in Hn; try apply conint_ge_le_spec in Hc;
    (left; split; [|done]);
    intros [?|[?|[(?&?&?)|[(?&?&?)|[(?&?&?)|(?&?&?)]]]]]; simplify_eq; first [done|lia|congruence].
Qed.

Lemma parse_RouteOptionsRequest_valid cfg body req :
  Config_valid cfg -> parse_RouteOptionsRequest cfg body = Ok req ->
  confloat_gt_le 0 50 (fuel_l_per_100km (vehicle req)) = true /\
  0 <= fuel_price_per_liter req <= 200000.
Proof.
  intros [Hrate Hprice] Hparse.
  destruct (parse_RouteOptionsRequest_dec cfg body) as [[Hok H]|[_ H]];
    rewrite H in Hparse; [|done].
  injection Hparse as <-. cbn. split.
  - destruct (body_vehicle body) as [[r|]|] eqn:E; cbn; try done.
    destruct (confloat_gt_le 0 50 r) eqn:Hr; [done|].
    destruct Hok. unfold violates. eauto 10.
  - destruct (body_fuel_price_per_liter body) as [c|] eqn:E; cbn; [|done].
    destruct (decide (0 <= c <= 200000)); [done|].
    destruct Hok. unfold violates. eauto 10.
Qed.

(** ** The outcomes of a call *)

Lemma float_of_int_Raise z e : float_of_int z = Raise e -> e = Unhandled.
Proof. unfold float_of_int. case_match; congruence. Qed.

Lemma as_float_Raise v e : as_float v = Raise e -> e = Unhandled.
Proof. destruct v; cbn; try congruence. apply float_of_int_Raise. Qed.

Lemma getitem_Raise v key e : getitem v key = Raise e -> e = Unhandled.
Proof. destruct v; cbn; try congruence. case_match; congruence. Qed.

Lemma route_option_Raise req idx rt e :
  route_option req idx rt = Raise e -> e = Unhandled.
Proof.
  unfold route_option, truediv, mul_int. intros H.
  repeat (apply bind_Raise in H as [H|(?&_&H)]);
    first [ by eauto using getitem_Raise, as_float_Raise, float_of_int_Raise
          | by repeat case_match; congruence ].
Qed.

Lemma route_option_loop_Raise req idx items e :
  route_option_loop req idx items = Raise e -> e = Unhandled.
Proof.
  revert idx. induction items as [|rt items IH]; intros idx; cbn; [done|].
  intros [H|(o&_&[H|(out&_&H)]%bind_Raise)]%bind_Raise;
    eauto using route_option_Raise. done.
Qed.

Lemma rank_routes_Raise req data e :
  rank_routes req data = Raise e ->
  e = Unhandled \/
  e = not_found /\
  exists d, data = JDict d /\
            truthy (default (JList []) (d !! "routes")) = false.
Proof.
  unfold rank_routes.
  intros [H|(routes&Hget&H)]%bind_Raise.
  { left. destruct data; cbn in H; congruence. }
  destruct data as [| | | | | |d]; try done. injection Hget as <-.
  destruct (truthy _) eqn:E; cbn in H.
  - left. apply bind_Raise in H as [H|(items&_&[H|(out&_&H)]%bind_Raise)].
    + unfold slice_items in H. repeat case_match; congruence.
    + eauto using route_option_loop_Raise.
    + done.
  - right. injection H as <-. eauto.
Qed.


(** A call, case by case. *)
Lemma post_route_options_cases cfg upstream body log :
  post_route_options cfg upstream body log =
  match parse_RouteOptionsRequest cfg body with
  | Raise e => (Raise e, log)
  | Ok req =>
      (match upstream (request_of cfg body) with
       | Raises (ConnectionError _) =>
           Raise (HTTPException 502
                    ("No hay conexión con OSRM en " +:+ OSRM_BASE_URL cfg
                     +:+ ". Verifica que OSRM esté activo."))
       | Raises (RequestException e) =>
           Raise (HTTPException 502 ("OSRM error: " +:+ e))
       | Raises OtherException => Raise Unhandled
       | Returns data => rank_routes req data
       end, log ++ [request_of cfg body])
  end.
Proof.
  rewrite post_route_options_eq.
  destruct (parse_RouteOptionsRequest cfg body) as [req|e] eqn:Hparse; [|done].
  apply parse_RouteOptionsRequest_Ok in Hparse as (Ho&Hd&_).
  unfold request_of. rewrite <-Ho, <-Hd.
  unfold route_options, osrm_get_routes, fetch_json, mbind, IO_bind, pure.
  by destruct (upstream _) as [[]|data].
Qed.

Lemma rank_routes_list req d rs :
  1 <= k req -> d !! "routes" = Some (JList rs) ->
  rank_routes req (JDict d) =
  if bool_decide (rs = []) then Raise not_found else
  out ← route_option_loop req 1 (take (Z.to_nat (k req)) rs);
  Ok {| resp_preference := preference req; requested := k req;
        returned := Z.of_nat (length (list_sort score out));
        routes := list_sort score out |}.
Proof.
  intros Hk Hd. unfold rank_routes. cbn. rewrite Hd. cbn.
  case_bool_decide; [done|]. cbn. by rewrite slice_stop_nonneg by lia.
Qed.

Lemma route_option_incomplete req idx rt :
  incomplete rt -> route_option req idx rt = Raise Unhandled.
Proof.
  intros H. destruct (route_option req idx rt) as [o|e] eqn:E.
  - apply route_option_Ok in E
      as (?&?&?&?&?&?&?&Hdist&_&Hdur&_&_&_&Hgeo&_).
    destruct rt as [| | | | | |c]; try done. cbn in *.
    destruct (H c eq_refl) as [H'|[H'|H']]; rewrite H' in *; done.
  - by rewrite (route_option_Raise _ _ _ _ E).
Qed.

Lemma route_option_loop_fails req idx items j rt e :
  items !! j = Some rt -> route_option req (idx + j) rt = Raise e ->
  route_option_loop req idx items = Raise Unhandled.
Proof.
  intros Hj Hrt.
  destruct (route_option_loop req idx items) as [out|e'] eqn:E.
  - destruct (route_option_loop_lookup _ _ _ _ _ _ E Hj) as (o&_&?).
    congruence.
  - by rewrite (route_option_loop_Raise _ _ _ _ E).
Qed.

Lemma post_route_options_option cfg upstream body log resp log' o :
  post_route_options cfg upstream body log = (Ok resp, log') ->
  o ∈ routes resp ->
  exists req j rt,
    parse_RouteOptionsRequest cfg body = Ok req /\
    resp_preference resp = preference req /\
    route_option req (S j) rt = Ok o.
Proof.
  intros (req&data&Hparse&Hfetch&Hrank)%post_route_options_Ok Ho.
  pose proof (parse_RouteOptionsRequest_Ok _ _ _ Hparse) as (_&_&_&_&Hk&_).
  apply rank_routes_Ok in Hrank as (d&rs&built&->&Hd&Hrs&Hloop&->); [|lia].
  cbn in *. rewrite list_sort_perm in Ho.
  destruct (route_option_loop_elem _ _ _ _ _ Hloop Ho) as (j&rt&_&_&_&?).
  by exists req, j, rt.
Qed.

Lemma osrm_test_log cfg upstream log :
  (osrm_test cfg upstream log).2 = log ++ [osrm_test_request cfg].
Proof.
  unfold osrm_test, osrm_get_routes, fetch_json, mbind, IO_bind, pure.
  fold (osrm_test_request cfg).
  by destruct (upstream (osrm_test_request cfg)) as [[]|data].
Qed.

(** ** The options and their order *)

Lemma route_option_id req idx rt o :
  route_option req idx rt = Ok o -> id_ o = route_id idx.
Proof.
  intros (?&?&?&?&?&?&?&_&_&_&_&_&_&_&->)%route_option_Ok. done.
Qed.

Lemma route_option_loop_ids req idx items out :
  route_option_loop req idx items = Ok out ->
  id_ <$> out = route_id <$> seq idx (length items).
Proof.
  revert idx out. induction items as [|rt items IH]; intros idx out; cbn.
  - by intros [= <-].
  - intros (o&Ho&(out'&Hout'&[= <-])%bind_Ok)%bind_Ok. cbn.
    by rewrite (route_option_id _ _ _ _ Ho), (IH _ _ Hout').
Qed.

Lemma route_id_inj : Inj (=) (=) route_id.
Proof.
  intros i j H. unfold route_id in H. cbn in H. injection H as H.
  by apply (inj pretty).
Qed.

Lemma route_option_preference req req' idx rt o :
  fuel_price_per_liter req' = fuel_price_per_liter req ->
  vehicle req' = vehicle req ->
  route_option req idx rt = Ok o ->
  exists o', route_option req' idx rt = Ok o' /\ figures o' = figures o.
Proof.
  intros Hprice Hvehicle
    (distance&duration&dist_km&dur_min&fuel_l&fuel_cost&g&
       Hdist&Hkm&Hdur&Hmin&->&Hcost&Hgeo&->)%route_option_Ok.
  unfold route_option. rewrite Hprice, Hvehicle, Hdist, Hdur, Hgeo.
  cbn -[truediv mul_int estimate_fuel py_round score_route].
  rewrite Hkm. cbn -[truediv mul_int estimate_fuel py_round score_route].
  rewrite Hmin. cbn -[truediv mul_int estimate_fuel py_round score_route].
  rewrite Hcost. cbn -[truediv mul_int estimate_fuel py_round score_route].
  eauto.
Qed.

Lemma route_option_loop_preference req req' idx items out :
  route_option_loop req idx items = Ok out ->
  fuel_price_per_liter req' = fuel_price_per_liter req ->
  vehicle req' = vehicle req ->
  exists out', route_option_loop req' idx items = Ok out' /\
               figures <$> out' = figures <$> out.
Proof.
  intros Hloop Hprice Hvehicle. revert idx out Hloop.
  induction items as [|rt items IH]; intros idx out; cbn.
  - intros [= <-]. eauto.
  - intros (o&Ho&(out0&Hout0&[= <-])%bind_Ok)%bind_Ok.
    destruct (route_option_preference _ req' _ _ _ Hprice Hvehicle Ho)
      as (o'&->&Hfig).
    destruct (IH _ _ Hout0) as (out'&->&Hfigs). cbn.
    eexists. split; [done|]. cbn. by rewrite Hfig, Hfigs.
Qed.

Lemma route_option_ext req req' idx rt :
  preference req' = preference req ->
  fuel_price_per_liter req' = fuel_price_per_liter req ->
  vehicle req' = vehicle req ->
  route_option req' idx rt = route_option req idx rt.
Proof. destruct req, req'; cbn. by intros -> -> ->. Qed.

Lemma route_option_loop_ext req req' idx items :
  preference req' = preference req ->
  fuel_price_per_liter req' = fuel_price_per_liter req ->
  vehicle req' = vehicle req ->
  route_option_loop req' idx items = route_option_loop req idx items.
Proof.
  intros H1 H2 H3. revert idx.
  induction items as [|rt items IH]; intros idx; cbn; [done|].
  by rewrite (route_option_ext req req'), IH.
Qed.

Lemma route_option_loop_take req idx items out n :
  route_option_loop req idx items = Ok out ->
  route_option_loop req idx (take n items) = Ok (take n out).
Proof.
  revert idx out n. induction items as [|rt items IH]; intros idx out n; cbn.
  - intros [= <-]. by destruct n.
  - intros (o&Ho&(out0&Hout0&[= <-])%bind_Ok)%bind_Ok.
    destruct n as [|n]; cbn; [done|].
    by rewrite Ho, (IH _ _ n Hout0).
Qed.

Lemma list_sort_in_order {A} (key : A -> float) (l : list A) :
  (forall i x y, l !! i = Some x -> l !! S i = Some y ->
                 (key y <? key x)%float = false) ->
  list_sort key l = l.
Proof.
  induction l as [|x l IH]; intros H; [done|].
  cbn. fold (list_sort key l). rewrite IH.
  - destruct l as [|y l]; [done|]. cbn. by rewrite (H 0%nat x y).
  - intros i a b Ha Hb. by apply (H (S i)).
Qed.

Lemma filter_sublist {A} (f : A -> bool) l : List.filter f l `sublist_of` l.
Proof.
  induction l as [|x l IH]; cbn; [done|].
  destruct (f x); by constructor.
Qed.

Lemma sublist_filter_pair {A} (f : A -> bool) a b l :
  [a; b] `sublist_of` l -> f a = true -> f b = true ->
  [a; b] `sublist_of` List.filter f l.
Proof.
  intros Hsub Ha Hb.
  induction l as [|x l IH]; [by apply sublist_nil_r in Hsub|].
  apply sublist_cons_r in Hsub as [Hsub|(l'&[= <- <-]&Hsub)]; cbn.
  - destruct (f x); [apply sublist_cons|]; by apply IH.
  - rewrite Ha. apply sublist_skip.
    clear IH. induction l as [|y l IH]; [by apply sublist_nil_r in Hsub|].
    apply sublist_cons_r in Hsub as [Hsub|(l'&[= <- <-]&Hsub)]; cbn.
    + destruct (f y); [apply sublist_cons|]; by apply IH.
    + rewrite Hb. apply sublist_skip, sublist_nil_l.
Qed.

Lemma lookup_pair_sublist {A} (l : list A) i j a b :
  l !! i = Some a -> l !! j = Some b -> (i < j)%nat -> [a; b] `sublist_of` l.
Proof.
  revert i j. induction l as [|x l IH]; intros i j Hi Hj Hlt;
    [by rewrite lookup_nil in Hi|].
  destruct i as [|i]; cbn in Hi.
  - injection Hi as ->. apply sublist_skip.
    destruct j as [|j]; [lia|]. cbn in Hj.
    apply singleton_sublist_l. by eapply list_elem_of_lookup_2.
  - destruct j as [|j]; [lia|]. cbn in Hj. apply sublist_cons.
    apply (IH i j); [done..|lia].
Qed.

Lemma sublist_pair_seq (f : nat -> string) x y i n :
  [x; y] `sublist_of` (f <$> seq i n) ->
  exists a b, x = f a /\ y = f b /\ (i <= a < b)%nat.
Proof.
  revert i. induction n as [|n IH]; intros i; cbn.
  { by intros ?%sublist_nil_r. }
  intros [Hsub|(l'&[= -> <-]&Hsub)]%sublist_cons_r.
  - destruct (IH _ Hsub) as (a&b&?&?&?). exists a, b. split_and!; try done; lia.
  - apply singleton_sublist_l in Hsub.
    apply list_elem_of_fmap in Hsub as (b&->&[? _]%elem_of_seq).
    exists i, b. split_and!; try done; lia.
Qed.

(** ** Conversions *)

Lemma iter_xO_pow2 d m : Zpos (Pos.iter xO m d) = Zpos m * 2 ^ Zpos d.
Proof.
  change (Pos.iter xO m d) with (shift_pos d m).
  rewrite shift_pos_correct. change (Z.pow_pos 2 d) with (2 ^ Zpos d). lia.
Qed.

Lemma binary_round_signed s m e : SFsigned s (binary_round prec emax s m e).
Proof.
  unfold binary_round. destruct (shl_align _ _ _) as [mz ez].
  apply (binary_round_aux_sign s (Zpos mz) ez loc_Exact). done.
Qed.

Lemma binary_normalize_signed z :
  SFsigned (z <? 0) (binary_normalize prec emax z 0 false).
Proof. destruct z; cbn [binary_normalize]; [done|..]; apply binary_round_signed. Qed.

Lemma SFsigned_opp s x : SFsigned s x -> SFsigned (negb s) (SFopp x).
Proof. destruct x; cbn; congruence. Qed.

Lemma SF2Prim_signed x s : SFsigned s x -> SFsigned s (Prim2SF (SF2Prim x)).
Proof.
  destruct x as [s'|s'| |s' m e]; cbn [SFsigned]; try done.
  - intros ->. by destruct s.
  - intros ->. by destruct s.
  - intros ->. cbn [SF2Prim].
    set (pm := of_uint63 _).
    assert (SFsigned false (Prim2SF pm)) as Hpm.
    { subst pm. rewrite of_uint63_spec.
      pose proof (Uint63.to_Z_bounded (Uint63Axioms.of_Z (Z.pos m))) as [H _].
      pose proof (binary_normalize_signed (Uint63Axioms.to_Z (Uint63Axioms.of_Z (Z.pos m)))) as H'.
      by rewrite (proj2 (Z.ltb_ge _ _) H) in H'. }
    assert (SFsigned false (Prim2SF (Z.ldexp pm e))) as Hf.
    { unfold Z.ldexp. rewrite FloatAxioms.ldshiftexp_spec.
      destruct (Prim2SF pm) as [| | |s0 m0 e0]; try done. cbn in Hpm. subst s0.
      apply binary_round_signed. }
    destruct s; [|done]. rewrite opp_spec. by apply (SFsigned_opp false).
Qed.

Lemma not_nan_signed x :
  is_nan x = false <-> exists s, SFsigned s (Prim2SF x).
Proof.
  rewrite is_nan_frank. unfold frank.
  destruct (Prim2SF x) as [s|s| |[] m e]; cbn; split; eauto;
    by intros [].
Qed.

Lemma float_of_int_signed z x :
  float_of_int z = Ok x -> SFsigned (z <? 0) (Prim2SF x).
Proof.
  unfold float_of_int. pose proof (binary_normalize_signed z) as H.
  destruct (binary_normalize prec emax z 0 false) as [s|s| |s m e] eqn:E;
    try done; intros Hx; injection Hx as <-; exact (SF2Prim_signed _ _ H).
Qed.

Lemma binary_round_finite s m e :
  Zdigits2 (Zpos m) + e <= 1023 -> e <= 970 ->
  forall s', binary_round prec emax s m e <> S754_infinity s'.
Proof.
  intros Hd He s'. unfold binary_round, shl_align. rewrite fexp_eq.
  change (Zpos (digits2_pos m)) with (Zdigits2 (Zpos m)).
  destruct (Z.max _ _ - e) as [|p|p] eqn:E;
    rewrite binary_round_aux_raw; intros (q&Hq&Hlt)%round_finish_inf.
  - destruct (round_raw _ _ _) as [m' e'] eqn:Hr. cbn in *.
    apply round_raw_exp_bound in Hr; [|done]. rewrite fexp_eq in Hr. cbn [Zdigits2] in *. lia.
  - destruct (round_raw _ _ _) as [m' e'] eqn:Hr. cbn in *.
    apply round_raw_exp_bound in Hr; [|done]. rewrite fexp_eq in Hr.
    cbn [Zdigits2] in *. lia.
  - destruct (round_raw _ _ _) as [m' e'] eqn:Hr. cbn in *.
    apply round_raw_exp_bound in Hr; [|done]. rewrite fexp_eq in Hr.
    rewrite iter_xO_pow2, Zdigits2_mul_pow2 in Hr by done.
    cbn [Zdigits2] in *. lia.
Qed.

Lemma float_of_int_Ok z : Z.abs z < 2 ^ 1023 -> exists x, float_of_int z = Ok x.
Proof.
  intros Hz. unfold float_of_int.
  destruct (binary_normalize prec emax z 0 false) as [?|s'| |] eqn:E; eauto.
  exfalso. destruct z as [|m|m]; cbn [binary_normalize] in E; [done|..].
  - apply (binary_round_finite false m 0) in E; [done| |lia].
    rewrite Z.add_0_r. apply Zdigits2_le; [done|lia|exact Hz].
  - apply (binary_round_finite true m 0) in E; [done| |lia].
    rewrite Z.add_0_r. apply Zdigits2_le; [done|lia|exact Hz].
Qed.

(** An integer below [2^53] is a float as it is. *)
Lemma binary_round_small s m :
  Zpos m < 2 ^ 53 ->
  exists m' e',
    binary_round prec emax s m 0 = S754_finite s m' e' /\ e' <= 0 /\
    valid_binary (S754_finite s m' e') = true.
Proof.
  intros Hlt. unfold binary_round, shl_align. rewrite fexp_eq.
  change (Zpos (digits2_pos m)) with (Zdigits2 (Zpos m)).
  pose proof (Zdigits2_le (Zpos m) 53 ltac:(done) ltac:(done) Hlt) as Hd.
  assert (0 < Zdigits2 (Zpos m)) as Hd0 by done.
  rewrite Z.add_0_r, Z.max_l by lia.
  destruct (Zdigits2 (Zpos m) - 53 - 0) as [|p|p] eqn:E; try lia.
  - rewrite binary_round_aux_raw, round_raw_noshift
      by (rewrite fexp_eq; lia).
    rewrite round_finish_pos. cbn [Z.leb Z.compare].
    exists m, 0. split_and!; [done..|].
    cbn. unfold bounded, canonical_mantissa. rewrite fexp_eq.
    change (Zpos (digits2_pos m)) with (Zdigits2 (Zpos m)).
    apply andb_true_iff. split; [apply Z.eqb_eq; lia|done].
  - assert (Zdigits2 (Zpos (Pos.iter xO m p)) = 53) as Hdig.
    { rewrite iter_xO_pow2, Zdigits2_mul_pow2 by done. lia. }
    rewrite binary_round_aux_raw, round_raw_noshift
      by (rewrite fexp_eq, Hdig; lia).
    rewrite round_finish_pos.
    destruct (Z.leb_spec (Zdigits2 (Zpos m) - 53) 971); [|lia].
    eexists _, _. split_and!; [done|lia|].
    cbn. unfold bounded, canonical_mantissa. rewrite fexp_eq.
    change (Zpos (digits2_pos (Pos.iter xO m p)))
      with (Zdigits2 (Zpos (Pos.iter xO m p))).
    rewrite Hdig.
    apply andb_true_iff. unfold emax, prec.
    split; [apply Z.eqb_eq|apply Z.leb_le]; cbn [Zdigits2] in *; lia.
Qed.

Lemma float_of_int_small z :
  Z.abs z < 2 ^ 53 ->
  exists x, float_of_int z = Ok x /\
    match Prim2SF x with
    | S754_zero _ => z = 0
    | S754_finite s _ e => s = (z <? 0) /\ z <> 0 /\ e <= 0
    | _ => False
    end.
Proof.
  intros Hz. unfold float_of_int.
  destruct z as [|m|m]; cbn [binary_normalize].
  - by exists 0%float.
  - destruct (binary_round_small false m) as (m'&e'&->&?&Hv); [lia|].
    eexists. split; [done|]. by rewrite (Prim2SF_SF2Prim _ Hv).
  - destruct (binary_round_small true m) as (m'&e'&->&?&Hv); [lia|].
    eexists. split; [done|]. by rewrite (Prim2SF_SF2Prim _ Hv).
Qed.

(** ** Products and quotients that are numbers *)

Lemma SFmul_signed x s sy m e :
  SFsigned s x -> SFsigned (xorb s sy) (SF64mul x (S754_finite sy m e)).
Proof.
  destruct x as [sx|sx| |sx mx ex]; cbn [SFsigned]; try done; intros ->;
    try done.
  apply (binary_round_aux_sign (xorb s sy) (Zpos (mx * m)) (ex + e) loc_Exact).
  done.
Qed.

Lemma SFdiv_signed x s sy m e :
  SFsigned s x -> SFsigned (xorb s sy) (SF64div x (S754_finite sy m e)).
Proof.
  destruct x as [sx|sx| |sx mx ex]; cbn [SFsigned]; try done; intros ->;
    try done.
  unfold SF64div, SFdiv.
  pose proof (SFdiv_core_binary_nonneg mx ex m e) as Hq.
  destruct (SFdiv_core_binary _ _ _ _ _ _) as [[q e'] l]. cbn in Hq.
  by apply binary_round_aux_sign.
Qed.

(** Zero times a number is zero; zero times an infinity is a NaN. *)
Lemma SFmul_zero x s :
  SF64mul x (S754_zero s) =
  match x with
  | S754_zero sx | S754_finite sx _ _ => S754_zero (xorb sx s)
  | _ => S754_nan
  end.
Proof. by destruct x. Qed.

Lemma signed_nonneg x : SFsigned false x -> SFnonneg x = true.
Proof. destruct x; cbn; try done; by intros ->. Qed.

Lemma div_not_nan x c mc ec :
  Prim2SF c = S754_finite false mc ec -> is_nan x = false ->
  is_nan (x / c) = false.
Proof.
  intros Hc [s Hs]%not_nan_signed. apply not_nan_signed.
  rewrite FloatAxioms.div_spec, Hc. eexists. by apply SFdiv_signed.
Qed.

Lemma div_nonneg x c mc ec :
  Prim2SF c = S754_finite false mc ec -> SFnonneg (Prim2SF x) = true ->
  SFnonneg (Prim2SF (x / c)) = true.
Proof.
  intros Hc Hx. rewrite FloatAxioms.div_spec, Hc. by apply SFdiv_nonneg.
Qed.

Lemma py_round_nonneg x n :
  SFnonneg (Prim2SF x) = true -> SFnonneg (Prim2SF (py_round x n)) = true.
Proof.
  intros Hx. unfold py_round.
  destruct (Prim2SF x) as [s|s| |s m e] eqn:E; try by rewrite E.
  cbn in Hx. apply negb_true_iff in Hx as ->.
  destruct (323 <? n)%N; [by rewrite E|].
  case_match; try done.
  apply signed_nonneg, (SF2Prim_signed _ false).
  apply (SFdiv_signed _ false false). done.
Qed.

(** ** Products and quotients that do not overflow *)

Lemma SFbelow_le b b' x : b <= b' -> SFbelow b x -> SFbelow b' x.
Proof. destruct x; cbn; try done. lia. Qed.

Lemma round_finish_below s p b :
  0 <= p.1 -> p.2 <= b -> b <= 971 -> SFbelow b (round_finish s p).
Proof.
  destruct p as [[|q|q] e]; unfold round_finish; cbn [fst snd]; try done.
  intros _ He Hb. destruct (Z.leb_spec e (emax - prec)); [done|].
  unfold emax, prec in *. lia.
Qed.

Lemma SFmul_below s1 m1 e1 s2 m2 e2 b :
  Zdigits2 (Zpos m1) <= 53 -> Zdigits2 (Zpos m2) <= 53 ->
  Z.max (e1 + e2 + 53) (-1074) + 1 <= b -> b <= 971 ->
  SFbelow b (SF64mul (S754_finite s1 m1 e1) (S754_finite s2 m2 e2)).
Proof.
  intros H1 H2 Hb Hmax. rewrite SFmul_finite.
  destruct (round_raw _ _ _) as [m' e'] eqn:Hr.
  pose proof (round_raw_nonneg (Zpos (m1 * m2)) (e1 + e2) loc_Exact
                ltac:(done)) as Hm'.
  rewrite Hr in Hm'.
  apply round_raw_exp_bound in Hr; [|done]. rewrite fexp_eq in Hr.
  pose proof (Zdigits2_mul (Zpos m1) (Zpos m2) ltac:(done) ltac:(done)) as Hd.
  change (Zpos m1 * Zpos m2) with (Zpos (m1 * m2)) in Hd.
  assert (0 < Zdigits2 (Zpos m1)) by done.
  assert (0 < Zdigits2 (Zpos m2)) by done.
  apply round_finish_below; cbn [fst snd Zdigits2] in *; lia.
Qed.

Lemma SFdiv_below s1 m1 e1 s2 m2 e2 b :
  Zdigits2 (Zpos m1) <= 53 ->
  Z.max (e1 + 2 - (Zdigits2 (Zpos m2) + e2)) (-1073) <= b -> b <= 971 ->
  SFbelow b (SF64div (S754_finite s1 m1 e1) (S754_finite s2 m2 e2)).
Proof.
  intros H1 Hb Hmax. rewrite SFdiv_finite.
  pose proof (SFdiv_core_binary_nonneg m1 e1 m2 e2) as Hq.
  destruct (SFdiv_core_binary _ _ _ _ _ _) as [[q e'] l] eqn:Hcore.
  cbn [fst snd] in *.
  destruct (round_raw q e' l) as [mq eq] eqn:Hraw.
  pose proof (round_raw_nonneg q e' l Hq) as Hmq. rewrite Hraw in Hmq.
  pose proof (round_raw_exp_bound q e' l mq eq Hq Hraw) as Hbound.
  apply round_finish_below; cbn [fst snd]; [done| |done].
  revert Hcore. unfold SFdiv_core_binary. rewrite fexp_eq.
  set (d1 := Zdigits2 (Zpos m1)) in *. set (d2 := Zdigits2 (Zpos m2)) in *.
  set (e0 := Z.min _ (e1 - e2)). set (s := e1 - e2 - e0).
  set (m' := match s with Z0 => _ | _ => _ end).
  assert (0 <= s) by lia.
  assert (m' = Zpos m1 * 2 ^ s) as Hm'.
  { subst m'. destruct s eqn:Es; [lia| |lia]. by rewrite Z.shiftl_mul_pow2. }
  pose proof (Z_div_mod m' (Zpos m2) eq_refl) as Hdiv.
  destruct (Z.div_eucl m' (Zpos m2)) as [q' r']. intros [= -> <- _].
  pose proof (Zdigits2_lt (Zpos m1) ltac:(done)) as Hlt1. fold d1 in Hlt1.
  pose proof (Zdigits2_ge m2) as Hge2. fold d2 in Hge2.
  assert (0 < d1) by done. assert (0 < d2) by done.
  set (t := Z.max (d1 + s - d2 + 1) 0).
  assert (q < 2 ^ t) as Hqt.
  { assert (m' < 2 ^ (d1 + s)).
    { rewrite Hm', Z.pow_add_r by lia.
      pose proof (Z.pow_pos_nonneg 2 s). nia. }
    pose proof (Z.pow_pos_nonneg 2 (d2 - 1)).
    destruct (Z.le_gt_cases 0 (d1 + s - d2 + 1)).
    - replace t with (d1 + s - d2 + 1) by lia.
      assert (2 ^ (d1 + s) = 2 ^ (d2 - 1) * 2 ^ (d1 + s - d2 + 1)) as Hsplit.
      { rewrite <-Z.pow_add_r by lia. f_equal. lia. }
      nia.
    - replace t with 0 by lia.
      assert (2 ^ (d1 + s) <= 2 ^ (d2 - 1)) by (apply Z.pow_le_mono_r; lia).
      nia. }
  assert (Zdigits2 q <= t) by (apply Zdigits2_le; lia).
  rewrite fexp_eq in Hbound. lia.
Qed.

Lemma valid_digits x s m e :
  Prim2SF x = S754_finite s m e -> Zdigits2 (Zpos m) <= 53 /\ e <= 971.
Proof.
  intros Hx. pose proof (Prim2SF_valid x) as Hv. rewrite Hx in Hv.
  apply valid_finite in Hv as [(_&?&_)%canonical_digits ?]. done.
Qed.

Lemma is_finite_below x : is_finite x = true -> SFbelow 971 (Prim2SF x).
Proof.
  unfold is_finite, is_infinity, is_nan.
  rewrite negb_true_iff, orb_false_iff, negb_false_iff.
  rewrite !FloatAxioms.eqb_spec, abs_spec. intros [Hnan Hinf].
  destruct (Prim2SF x) as [s|s| |s m e] eqn:Hx; cbn [SFbelow];
    [done|by destruct s|done|].
  by apply valid_digits in Hx as [_ ?].
Qed.

Lemma below_not_nan b x : SFbelow b (Prim2SF x) -> is_nan x = false.
Proof.
  intros H. apply not_nan_signed. destruct (Prim2SF x) as [s|s| |s m e]; try done;
    by exists s.
Qed.

(** Division by a constant of at least one. *)
Lemma div_below x c mc ec b :
  Prim2SF c = S754_finite false mc ec -> 2 <= Zdigits2 (Zpos mc) + ec ->
  -1073 <= b <= 971 ->
  SFbelow b (Prim2SF x) -> SFbelow b (Prim2SF (x / c)).
Proof.
  intros Hc Hmag Hb Hx. rewrite FloatAxioms.div_spec, Hc.
  destruct (Prim2SF x) as [s|s| |s m e] eqn:E; try done. cbn in Hx.
  apply valid_digits in E as [Hd _].
  apply SFdiv_below; [done|lia|lia].
Qed.

(** A rate in [(0, 50]]. *)
Lemma rate_finite r :
  confloat_gt_le 0 50 r = true ->
  exists m e, Prim2SF r = S754_finite false m e /\ e <= -47.
Proof.
  unfold confloat_gt_le. intros [Hpos Hle]%andb_true_iff.
  rewrite FloatAxioms.leb_spec in Hle.
  change (Prim2SF 50) with (S754_finite false 7036874417766400 (-47)) in Hle.
  apply lt0_positive in Hpos as [Hr|(m&e&Hr)]; rewrite Hr in Hle; [done|].
  exists m, e. split; [done|].
  unfold SFleb, SFcompare in Hle.
  destruct (Z.compare_spec e (-47)); try lia; done.
Qed.

Lemma estimate_fuel_below x r :
  SFbelow 971 (Prim2SF x) -> confloat_gt_le 0 50 r = true ->
  SFbelow 971 (Prim2SF (estimate_fuel (x / 1000) r)).
Proof.
  intros Hx (mr&er&Hr&Her)%rate_finite. unfold estimate_fuel.
  apply (div_below _ 100 7036874417766400 (-46)); [done|done|lia|].
  assert (SFbelow 963 (Prim2SF (x / 1000))) as Hkm.
  { rewrite FloatAxioms.div_spec.
    change (Prim2SF 1000) with (S754_finite false 8796093022208000 (-43)).
    destruct (Prim2SF x) as [s|s| |s m e] eqn:E; try done. cbn in Hx.
    apply valid_digits in E as [Hd _].
    apply SFdiv_below; [done| |lia].
    change (Zdigits2 (Zpos 8796093022208000)) with 53. lia. }
  rewrite FloatAxioms.mul_spec, Hr.
  destruct (Prim2SF (x / 1000)) as [s|s| |s m e] eqn:E; try done. cbn in Hkm.
  apply valid_digits in E as [Hd _].
  apply valid_digits in Hr as [Hdr _].
  eapply SFbelow_le; [|apply (SFmul_below _ _ _ _ _ _ 970)]; try done; lia.
Qed.

Lemma mul_below_not_nan a p :
  SFbelow 971 (Prim2SF a) -> SFbelow 971 (Prim2SF p) -> is_nan (a * p) = false.
Proof.
  intros Ha Hp. apply not_nan_signed. rewrite FloatAxioms.mul_spec.
  destruct (Prim2SF p) as [sp|sp| |sp mp ep]; try done.
  - rewrite SFmul_zero. destruct (Prim2SF a) as [s|s| |s m e]; try done;
      by eexists.
  - destruct (Prim2SF a) as [s|s| |s m e] eqn:E; try done.
    + by eexists.
    + eexists. by apply (SFmul_signed _ s).
Qed.

(** ** The figures of an option *)

Lemma as_float_number v : number v -> exists x, as_float v = Ok x.
Proof.
  destruct v; cbn; try done; eauto. apply float_of_int_Ok.
Qed.

Lemma as_float_below v x :
  finite_number v -> as_float v = Ok x -> SFbelow 971 (Prim2SF x).
Proof.
  destruct v as [|b|z|f| | |]; cbn; try done.
  - intros _ [= <-]. destruct b; vm_compute; done.
  - intros Hz Hx. destruct (float_of_int_small z Hz) as (x'&Hx'&H).
    assert (x' = x) as -> by congruence.
    destruct (Prim2SF x) as [| | |s m e]; try done. cbn. lia.
  - intros Hf [= <-]. by apply is_finite_below.
Qed.

Lemma as_float_nonneg v x :
  nonneg_number v -> as_float v = Ok x -> SFnonneg (Prim2SF x) = true.
Proof.
  destruct v as [|b|z|f| | |]; cbn; try done.
  - intros _ [= <-]. by destruct b.
  - intros Hz Hx%float_of_int_signed. apply signed_nonneg.
    by rewrite (proj2 (Z.ltb_ge z 0) Hz) in Hx.
  - intros Hf [= <-]. by rewrite <-le0_nonneg.
Qed.

Lemma route_option_complete req idx rt :
  Z.abs (fuel_price_per_liter req) < 2 ^ 1023 -> complete rt ->
  exists o, route_option req idx rt = Ok o.
Proof.
  intros Hprice (c&distance&duration&g&->&Hdist&Hnd&Hdur&Hndur&Hgeo).
  destruct (as_float_number _ Hnd) as [x Hx].
  destruct (as_float_number _ Hndur) as [y Hy].
  destruct (float_of_int_Ok _ Hprice) as [p Hp].
  unfold route_option, truediv, mul_int, getitem.
  rewrite Hdist, Hdur, Hgeo.
  cbn -[as_float float_of_int estimate_fuel py_round score_route].
  rewrite Hx. cbn -[as_float float_of_int estimate_fuel py_round score_route].
  rewrite Hy. cbn -[as_float float_of_int estimate_fuel py_round score_route].
  rewrite Hp. cbn -[as_float float_of_int estimate_fuel py_round score_route].
  eauto.
Qed.

Lemma route_option_loop_complete req idx items :
  Z.abs (fuel_price_per_liter req) < 2 ^ 1023 -> Forall complete items ->
  exists out, route_option_loop req idx items = Ok out.
Proof.
  intros Hprice Hitems. revert idx.
  induction Hitems as [|rt items Hrt _ IH]; intros idx; cbn; [eauto|].
  destruct (route_option_complete req idx rt Hprice Hrt) as [o ->].
  destruct (IH (S idx)) as [out ->]. cbn. eauto.
Qed.

Lemma route_option_score_not_nan req idx rt o :
  confloat_gt_le 0 50 (fuel_l_per_100km (vehicle req)) = true ->
  0 <= fuel_price_per_liter req <= 200000 ->
  finite_candidate rt -> route_option req idx rt = Ok o ->
  is_nan (score o) = false.
Proof.
  intros Hrate Hprice Hrt
    (distance&duration&dist_km&dur_min&fuel_l&fuel_cost&g&
       Hdist&Hkm&Hdur&Hmin&->&Hcost&Hgeo&->)%route_option_Ok.
  destruct rt as [| | | | | |c]; try done. cbn in Hdist, Hdur.
  destruct (c !! "distance") as [v1|] eqn:E1; [|done].
  destruct (c !! "duration") as [v2|] eqn:E2; [|done].
  injection Hdist as ->. injection Hdur as ->.
  pose proof (Hrt c distance eq_refl (or_introl E1)) as Hf1.
  pose proof (Hrt c duration eq_refl (or_intror E2)) as Hf2.
  apply bind_Ok in Hkm as (x&Hx&[= <-]). apply bind_Ok in Hmin as (y&Hy&[= <-]).
  apply bind_Ok in Hcost as (p&Hp&[= <-]).
  pose proof (as_float_below _ _ Hf1 Hx) as Hbx.
  pose proof (as_float_below _ _ Hf2 Hy) as Hby.
  pose proof (estimate_fuel_below x _ Hbx Hrate) as Hfuel.
  assert (is_nan (y / 60) = false) as Hmin.
  { eapply (div_not_nan _ 60); [done|]. by eapply below_not_nan. }
  assert (is_nan (x / 1000) = false) as Hkm.
  { eapply (div_not_nan _ 1000); [done|]. by eapply below_not_nan. }
  cbn [score]. unfold score_route.
  repeat case_bool_decide; try done.
  - by eapply below_not_nan.
  - apply mul_below_not_nan; [done|].
    destruct (float_of_int_small (fuel_price_per_liter req)) as (p'&Hp'&Hs);
      [lia|].
    assert (p' = p) as -> by congruence.
    destruct (Prim2SF p) as [| | |s m e]; try done. cbn. lia.
Qed.


Lemma route_option_nonneg req idx rt o :
  confloat_gt_le 0 50 (fuel_l_per_100km (vehicle req)) = true ->
  0 <= fuel_price_per_liter req <= 200000 ->
  finite_candidate rt -> nonneg_candidate rt ->
  route_option req idx rt = Ok o ->
  (0 <=? distance_km o)%float = true /\ (0 <=? duration_min o)%float = true /\
  (0 <=? fuel_liters o)%float = true /\ (0 <=? fuel_cost_cop o)%float = true /\
  (0 <=? score o)%float = true.
Proof.
  intros Hrate Hprice Hfin Hrt
    (distance&duration&dist_km&dur_min&fuel_l&fuel_cost&g&
       Hdist&Hkm&Hdur&Hmin&->&Hcost&Hgeo&->)%route_option_Ok.
  destruct rt as [| | | | | |c]; try done. cbn in Hdist, Hdur.
  destruct (c !! "distance") as [v1|] eqn:E1; [|done].
  destruct (c !! "duration") as [v2|] eqn:E2; [|done].
  injection Hdist as ->. injection Hdur as ->.
  apply bind_Ok in Hkm as (x&Hx&[= <-]). apply bind_Ok in Hmin as (y&Hy&[= <-]).
  apply bind_Ok in Hcost as (p&Hp&[= <-]).
  pose proof (as_float_nonneg _ _ (Hrt c distance eq_refl (or_introl E1)) Hx)
    as Hnx.
  pose proof (as_float_nonneg _ _ (Hrt c duration eq_refl (or_intror E2)) Hy)
    as Hny.
  pose proof (as_float_below _ _ (Hfin c distance eq_refl (or_introl E1)) Hx)
    as Hbx.
  pose proof (estimate_fuel_below x _ Hbx Hrate) as Hfuel.
  assert (SFnonneg (Prim2SF (x / 1000)) = true) as Hkm
    by by eapply (div_nonneg _ 1000).
  assert (SFnonneg (Prim2SF (y / 60)) = true) as Hmin
    by by eapply (div_nonneg _ 60).
  set (fuel_l := estimate_fuel (x / 1000) (fuel_l_per_100km (vehicle req)))
    in *.
  assert (SFnonneg (Prim2SF fuel_l) = true) as Hnf.
  { rewrite <-le0_nonneg. apply estimate_fuel_nonneg.
    - by rewrite le0_nonneg.
    - unfold confloat_gt_le in Hrate. by apply andb_true_iff in Hrate as [? _].
    - apply rate_finite in Hrate as (m&e&Hr&_).
      by rewrite FloatAxioms.ltb_spec, Hr. }
  assert (SFnonneg (Prim2SF (fuel_l * p)) = true) as Hnc.
  { rewrite FloatAxioms.mul_spec.
    destruct (float_of_int_small (fuel_price_per_liter req)) as (p'&Hp'&Hs);
      [lia|].
    assert (p' = p) as -> by congruence.
    destruct (Prim2SF p) as [sp| | |sp mp ep]; try done.
    - rewrite SFmul_zero. subst.
      destruct (Prim2SF fuel_l) as [s|s| |s m e]; try done;
        cbn in *; by destruct s, sp.
    - destruct Hs as (->&_&_).
      rewrite (proj2 (Z.ltb_ge _ 0)) by lia. by apply SFmul_nonneg. }
  cbn [distance_km duration_min fuel_liters fuel_cost_cop score].
  rewrite !le0_nonneg. split_and!; try by apply py_round_nonneg.
  unfold score_route. by repeat case_bool_decide.
Qed.

(** ** What a body is accepted for *)


(** The defaults are taken as they are: a body that violates nothing is
    accepted whatever the configuration, and the fields it leaves out get
    ["FASTEST"], [3], the configured price and the configured consumption,
    unchecked. *)
Theorem defaults_are_not_validated cfg body :
  ~ violates body ->
  exists req,
    parse_RouteOptionsRequest cfg body = Ok req /\
    origin req = body_origin body /\ destination req = body_destination body /\
    preference req = default "FASTEST"%string (body_preference body) /\
    k req = default 3 (body_k body) /\
    fuel_price_per_liter req =
      default (DEFAULT_FUEL_PRICE_PER_LITER cfg) (body_fuel_price_per_liter body) /\
    fuel_l_per_100km (vehicle req) =
      default (DEFAULT_FUEL_L_PER_100KM cfg) (mjoin (body_vehicle body)).
Proof.
  intros Hok.
  destruct (parse_RouteOptionsRequest_dec cfg body) as [[_ ->]|[Hbad _]];
    [|done].
  eexists. split; [done|]. done.
Qed.

Lemma defaults_are_not_validated_witness :
  exists req,
    parse_RouteOptionsRequest misconfigured body_defaults = Ok req /\
    fuel_price_per_liter req = -1 /\
    fuel_l_per_100km (vehicle req) = 100%float /\
    violates {| body_origin := body_origin body_defaults;
                body_destination := body_destination body_defaults;
                body_preference := None; body_k := None;
                body_fuel_price_per_liter := Some (-1);
                body_vehicle := Some (Some 100%float) |}.
Proof.
  edestruct (defaults_are_not_validated misconfigured body_defaults)
    as (req&Hreq&_&_&_&_&Hc&Hr).
  { intros [H|[H|[(?&H&_)|[(?&H&_)|[(?&H&_)|(?&H&_)]]]]]; by vm_compute in H. }
  exists req. split_and!; [exact Hreq|exact Hc|exact Hr|].
  right. right. right. right. left. exists (-1). split; [done|lia].
Defined.

(** ** How a call ends *)

(** The HTTP errors of [POST /route-options]: 404 with the detail
    [No se encontraron rutas] when the engine answered with a dict whose
    [routes] is missing or falsy; 502 naming the address of the engine
    when the request raised a [ConnectionError]; 502 with [str(e)] when
    it raised another [RequestException].  There is no other, and each
    comes after the one request. *)
Theorem http_errors_raised cfg upstream body log status detail log' :
  post_route_options cfg upstream body log
  = (Raise (HTTPException status detail), log') ->
  log' = log ++ [request_of cfg body] /\
  (status = 404 /\ detail = "No se encontraron rutas"%string /\
   (exists d, upstream (request_of cfg body) = Returns (JDict d) /\
              truthy (default (JList []) (d !! "routes")) = false) \/
   status = 502 /\
   (exists e, upstream (request_of cfg body) = Raises (ConnectionError e)) /\
   detail = "No hay conexión con OSRM en " +:+ OSRM_BASE_URL cfg
            +:+ ". Verifica que OSRM esté activo." \/
   status = 502 /\
   exists e, upstream (request_of cfg body) = Raises (RequestException e) /\
             detail = "OSRM error: " +:+ e).
Proof.
  rewrite post_route_options_cases.
  destruct (parse_RouteOptionsRequest cfg body) as [req|e] eqn:Hparse.
  2: { intros [= -> _].
       by apply parse_RouteOptionsRequest_Raise in Hparse. }
  destruct (upstream _) as [[e|e|]|data].
  - intros [= <- <- <-]. split; [done|]. right. left. eauto.
  - intros [= <- <- <-]. split; [done|]. right. right. eauto.
  - done.
  - intros [= H <-]. split; [done|].
    apply rank_routes_Raise in H as [?|[[= -> ->] (d&->&?)]]; [done|].
    left. eauto.
Qed.

Lemma http_errors_raised_witness :
  post_route_options sample_cfg
    (engine_raises (RequestException "Read timed out.")) body_defaults []
  = (Raise (HTTPException 502 "OSRM error: Read timed out."),
     [request_of sample_cfg body_defaults]) /\
  exists e,
    engine_raises (RequestException "Read timed out.")
      (request_of sample_cfg body_defaults) = Raises (RequestException e) /\
    "OSRM error: Read timed out."%string = "OSRM error: " +:+ e.
Proof.
  assert (post_route_options sample_cfg
            (engine_raises (RequestException "Read timed out."))
            body_defaults []
          = (Raise (HTTPException 502 "OSRM error: Read timed out."),
             [request_of sample_cfg body_defaults])) as Hpost
    by (vm_compute; reflexivity).
  split; [exact Hpost|].
  destruct (http_errors_raised _ _ _ _ _ _ _ Hpost)
    as [_ [(H&_)|[(_&(e&H)&_)|(_&H)]]]; [done|done|exact H].
Defined.


(** An answer of the engine that is not a dict, or whose [routes] is
    truthy without being a list, makes the handler raise an exception it
    does not catch (status 500): neither 404 nor 502. *)
Theorem unusable_document_is_unhandled cfg upstream body log data :
  ~ violates body ->
  upstream (request_of cfg body) = Returns data ->
  (forall d, data = JDict d ->
     exists v, d !! "routes" = Some v /\ truthy v = true /\
               forall rs, v <> JList rs) ->
  post_route_options cfg upstream body log
  = (Raise Unhandled, log ++ [request_of cfg body]).
Proof.
  intros Hok Hup Hdata. rewrite post_route_options_cases, Hup.
  destruct (parse_RouteOptionsRequest_dec cfg body) as [[_ ->]|[Hbad _]];
    [|done].
  f_equal. destruct data as [| | | | | |d]; try done.
  destruct (Hdata d eq_refl) as (v&Hv&Htruthy&Hlist).
  unfold rank_routes. cbn. rewrite Hv. cbn. rewrite Htruthy. cbn.
  destruct v as [| | | |s|rs|]; try done; [|by destruct (Hlist rs)].
  cbn. destruct s as [|c s]; [done|]. cbn.
  destruct (body_k body) as [n|] eqn:E; cbn; [|done].
  destruct (decide (1 <= n <= 5)) as [Hn|Hn].
  - rewrite slice_stop_nonneg by lia.
    destruct (Z.to_nat n) eqn:E'; [lia|]. done.
  - destruct Hok. unfold violates. eauto 10.
Qed.

Lemma unusable_document_is_unhandled_witness :
  post_route_options sample_cfg
    (engine_returns_document (JDict {[ "routes" := JStr "none" ]}))
    body_defaults []
  = (Raise Unhandled, [] ++ [request_of sample_cfg body_defaults]).
Proof.
  apply (unusable_document_is_unhandled sample_cfg
           (engine_returns_document (JDict {[ "routes" := JStr "none" ]}))
           body_defaults [] (JDict {[ "routes" := JStr "none" ]})).
  - intros [H|[H|[(?&H&_)|[(?&H&_)|[(?&H&_)|(?&H&_)]]]]]; by vm_compute in H.
  - reflexivity.
  - intros d [= <-]. exists (JStr "none"). split_and!; [reflexivity..|done].
Defined.

(** One candidate among the first [k] that is not a dict, or lacks its
    distance, duration or geometry, makes the whole call fail with an
    uncaught exception: no response with the other routes is returned. *)
Theorem incomplete_candidate_is_unhandled
  cfg upstream body log req d rs j rt :
  parse_RouteOptionsRequest cfg body = Ok req ->
  upstream (request_of cfg body) = Returns (JDict d) ->
  d !! "routes" = Some (JList rs) ->
  rs !! j = Some rt -> Z.of_nat j < k req -> incomplete rt ->
  post_route_options cfg upstream body log
  = (Raise Unhandled, log ++ [request_of cfg body]).
Proof.
  intros Hparse Hup Hd Hj Hlt Hrt.
  rewrite post_route_options_cases, Hparse, Hup. f_equal.
  pose proof (parse_RouteOptionsRequest_Ok _ _ _ Hparse) as (_&_&_&_&Hk&_).
  rewrite (rank_routes_list _ _ _ (proj1 Hk) Hd).
  case_bool_decide as Hnil; [by subst|].
  erewrite (route_option_loop_fails _ 1 _ j rt); [done| |].
  - apply lookup_take_Some. split; [done|lia].
  - by apply route_option_incomplete.
Qed.

Lemma incomplete_candidate_is_unhandled_witness :
  post_route_options sample_cfg (engine_returns broken_routes) body_defaults []
  = (Raise Unhandled, [] ++ [request_of sample_cfg body_defaults]).
Proof.
  eapply (incomplete_candidate_is_unhandled sample_cfg
            (engine_returns broken_routes) body_defaults [] _ _ _ 1%nat).
  - vm_compute. reflexivity.
  - vm_compute. reflexivity.
  - vm_compute. reflexivity.
  - reflexivity.
  - vm_compute. reflexivity.
  - intros c [= <-]. right. right. vm_compute. reflexivity.
Defined.

(** When the body is accepted, the engine answers with a non-empty list
    of routes and each of the first [k] has a numeric distance, a numeric
    duration and a dict as geometry, the call returns a response, after
    its one request. *)
Theorem complete_candidates_succeed cfg upstream body log req d rs :
  parse_RouteOptionsRequest cfg body = Ok req ->
  Z.abs (fuel_price_per_liter req) < 2 ^ 1023 ->
  upstream (request_of cfg body) = Returns (JDict d) ->
  d !! "routes" = Some (JList rs) -> rs <> [] ->
  Forall complete (take (Z.to_nat (k req)) rs) ->
  exists resp,
    post_route_options cfg upstream body log
    = (Ok resp, log ++ [request_of cfg body]) /\
    returned resp = Z.min (k req) (Z.of_nat (length rs)).
Proof.
  intros Hparse Hprice Hup Hd Hrs Hitems.
  rewrite post_route_options_cases, Hparse, Hup.
  pose proof (parse_RouteOptionsRequest_Ok _ _ _ Hparse) as (_&_&_&_&Hk&_).
  rewrite (rank_routes_list _ _ _ (proj1 Hk) Hd).
  rewrite bool_decide_eq_false_2 by done.
  destruct (route_option_loop_complete req 1 _ Hprice Hitems) as [out Hout].
  rewrite Hout. cbn. eexists. split; [done|]. cbn.
  rewrite list_sort_length, (route_option_loop_length _ _ _ _ Hout).
  rewrite length_take. lia.
Qed.

Lemma complete_candidates_succeed_witness :
  exists resp,
    post_route_options sample_cfg (engine_returns three_routes)
      (sample_body "FASTEST" 2) []
    = (Ok resp, [] ++ [request_of sample_cfg (sample_body "FASTEST" 2)]) /\
    returned resp = 2.
Proof.
  edestruct (complete_candidates_succeed sample_cfg
               (engine_returns three_routes) (sample_body "FASTEST" 2) [])
    as (resp&Hpost&Hreturned).
  - vm_compute. reflexivity.
  - vm_compute. reflexivity.
  - vm_compute. reflexivity.
  - vm_compute. reflexivity.
  - done.
  - repeat constructor; eexists _, _, _, _;
      (split_and!; [reflexivity|vm_compute; reflexivity|
                    |vm_compute; reflexivity| |vm_compute; reflexivity]);
      vm_compute; done.
  - exists resp. split; [exact Hpost|exact Hreturned].
Defined.

(** ** What a response holds *)

(** A response echoes the request: its preference is the one asked for,
    or ["FASTEST"], and is one of the four literals (the last branch of
    [score_route] is never reached from this operation); [requested] is
    the [k] asked for, or [3]; and [1 <= returned <= requested <= 5]. *)
Theorem response_echoes_request cfg upstream body log resp log' :
  post_route_options cfg upstream body log = (Ok resp, log') ->
  resp_preference resp = default "FASTEST"%string (body_preference body) /\
  Preference (resp_preference resp) = true /\
  requested resp = default 3 (body_k body) /\
  1 <= returned resp <= requested resp /\ requested resp <= 5.
Proof.
  rewrite post_route_options_cases.
  destruct (parse_RouteOptionsRequest_dec cfg body) as [[Hok ->]|[Hbad ->]];
    [|done].
  destruct (upstream _) as [[]|data]; try done.
  intros [= Hrank _].
  assert (1 <= default 3 (body_k body) <= 5) as Hk.
  { destruct (body_k body) as [n|] eqn:E; cbn; [|lia].
    destruct (decide (1 <= n <= 5)); [done|].
    destruct Hok. unfold violates. eauto 10. }
  apply rank_routes_Ok in Hrank as (d&rs&built&->&Hd&Hrs&Hloop&->);
    [|cbn; lia].
  cbn in *. split_and!; try done; try lia.
  - destruct (body_preference body) as [p|] eqn:E; cbn; [|done].
    destruct (Preference p) eqn:Hp; [done|].
    destruct Hok. unfold violates. eauto 10.
  - rewrite list_sort_length, (route_option_loop_length _ _ _ _ Hloop).
    rewrite length_take. destruct rs; [done|]. cbn. lia.
  - rewrite list_sort_length, (route_option_loop_length _ _ _ _ Hloop).
    rewrite length_take. lia.
Qed.

Lemma response_echoes_request_witness :
  exists resp log',
    post_route_options sample_cfg (engine_returns three_routes) body_defaults []
    = (Ok resp, log') /\
    resp_preference resp = "FASTEST"%string /\ requested resp = 3 /\
    1 <= returned resp <= 3.
Proof.
  eexists _, _. split; [vm_compute; reflexivity|].
  edestruct (response_echoes_request sample_cfg (engine_returns three_routes)
               body_defaults []) as (H1&_&H3&H4&_); [vm_compute; reflexivity|].
  split_and!; [exact H1|exact H3|exact (proj1 H4)|exact (proj2 H4)].
Defined.

(** The identifiers of a response are [r1] ... [rn], [n] the number of
    routes returned, each once. *)
Theorem identifiers_are_r1_to_rn cfg upstream body log resp log' :
  post_route_options cfg upstream body log = (Ok resp, log') ->
  NoDup (id_ <$> routes resp) /\
  id_ <$> routes resp ≡ₚ route_id <$> seq 1 (Z.to_nat (returned resp)).
Proof.
  intros (req&d&rs&built&_&_&_&_&_&Hloop&->&_&->)%post_route_options_Ok'.
  pose proof (route_option_loop_ids _ _ _ _ Hloop) as Hids.
  pose proof (route_option_loop_length _ _ _ _ Hloop) as Hlen.
  assert (id_ <$> list_sort score built ≡ₚ
          route_id <$> seq 1 (length built)) as Hperm.
  { rewrite <-Hlen in Hids. rewrite <-Hids. apply fmap_Permutation.
    apply list_sort_perm. }
  rewrite list_sort_length, Nat2Z.id. split; [|done].
  rewrite Hperm. apply (@NoDup_fmap_2 _ _ route_id route_id_inj), NoDup_seq.
Qed.

Lemma identifiers_are_r1_to_rn_witness :
  exists resp log',
    post_route_options sample_cfg (engine_returns three_routes)
      (sample_body "FASTEST" 3) [] = (Ok resp, log') /\
    id_ <$> routes resp = ["r3"; "r1"; "r2"]%string /\
    NoDup (id_ <$> routes resp) /\
    id_ <$> routes resp ≡ₚ route_id <$> seq 1 3.
Proof.
  eexists _, _. split; [vm_compute; reflexivity|]. split; [reflexivity|].
  eapply (identifiers_are_r1_to_rn sample_cfg (engine_returns three_routes)
            (sample_body "FASTEST" 3) []).
  vm_compute. reflexivity.
Defined.

(** In a response the figure the preference selects is the score,
    rounded: [duration_min] to 1 place for FASTEST, [distance_km] to 3
    for SHORT_DISTANCE, [fuel_liters] to 3 for LOW_FUEL, [fuel_cost_cop]
    to 0 for CHEAPEST. *)
Theorem selected_metric_is_rounded_score cfg upstream body log resp log' :
  post_route_options cfg upstream body log = (Ok resp, log') ->
  Forall (fun o =>
    (resp_preference resp = "FASTEST"%string ->
     duration_min o = py_round (score o) 1) /\
    (resp_preference resp = "SHORT_DISTANCE"%string ->
     distance_km o = py_round (score o) 3) /\
    (resp_preference resp = "LOW_FUEL"%string ->
     fuel_liters o = py_round (score o) 3) /\
    (resp_preference resp = "CHEAPEST"%string ->
     fuel_cost_cop o = py_round (score o) 0)) (routes resp).
Proof.
  intros Hpost. apply Forall_forall. intros o Ho.
  destruct (post_route_options_option _ _ _ _ _ _ _ Hpost Ho)
    as (req&j&rt&_&->&Hro).
  apply route_option_Ok in Hro as (?&?&?&?&?&?&?&_&_&_&_&_&_&_&->).
  cbn. split_and!; intros ->; done.
Qed.

Lemma selected_metric_is_rounded_score_witness :
  exists resp log',
    post_route_options sample_cfg (engine_returns three_routes)
      (sample_body "FASTEST" 3) [] = (Ok resp, log') /\
    (fun o => (duration_min o, score o)) <$> routes resp
    = [(9, 9.025); (10, 10); (12, 12)]%float /\
    Forall (fun o => duration_min o = py_round (score o) 1) (routes resp).
Proof.
  eexists _, _. split; [vm_compute; reflexivity|]. split; [reflexivity|].
  eapply Forall_impl.
  - eapply (selected_metric_is_rounded_score sample_cfg
              (engine_returns three_routes) (sample_body "FASTEST" 3) []).
    vm_compute. reflexivity.
  - intros o (H&_). apply H. reflexivity.
Defined.

(** Only the first [k] candidates are looked at: two answers of the
    engine whose lists of routes have the same first [k] items give the
    same outcome, whatever comes after them or beside the list. *)
Theorem only_first_k_candidates_matter
  cfg upstream upstream' body log req d d' rs rs' :
  parse_RouteOptionsRequest cfg body = Ok req ->
  upstream (request_of cfg body) = Returns (JDict d) ->
  d !! "routes" = Some (JList rs) ->
  upstream' (request_of cfg body) = Returns (JDict d') ->
  d' !! "routes" = Some (JList rs') ->
  take (Z.to_nat (k req)) rs = take (Z.to_nat (k req)) rs' ->
  post_route_options cfg upstream' body log
  = post_route_options cfg upstream body log.
Proof.
  intros Hparse Hup Hd Hup' Hd' Htake.
  rewrite !post_route_options_cases, Hparse, Hup, Hup'.
  pose proof (parse_RouteOptionsRequest_Ok _ _ _ Hparse) as (_&_&_&_&Hk&_).
  rewrite (rank_routes_list _ _ _ (proj1 Hk) Hd).
  rewrite (rank_routes_list _ _ _ (proj1 Hk) Hd'), Htake.
  assert (rs = [] <-> rs' = []) as Hnil.
  { destruct (Z.to_nat (k req)) eqn:E; [lia|].
    destruct rs, rs'; cbn in Htake; done. }
  by rewrite (bool_decide_ext _ _ Hnil).
Qed.

Lemma only_first_k_candidates_matter_witness :
  post_route_options sample_cfg
    (engine_returns (take 2 three_routes ++ [JNull]))
    (sample_body "FASTEST" 2) []
  = post_route_options sample_cfg (engine_returns three_routes)
      (sample_body "FASTEST" 2) [].
Proof.
  eapply (only_first_k_candidates_matter sample_cfg
            (engine_returns three_routes)
            (engine_returns (take 2 three_routes ++ [JNull]))
            (sample_body "FASTEST" 2) []); vm_compute; reflexivity.
Defined.

(** The preference changes the score and the order, nothing else: the
    same call with another preference succeeds as well and returns the
    same routes, with the same identifiers and figures. *)
Theorem preference_changes_score_and_order_only
  cfg upstream body p log resp log' :
  post_route_options cfg upstream body log = (Ok resp, log') ->
  (forall q, p = Some q -> Preference q = true) ->
  exists resp',
    post_route_options cfg upstream (with_preference p body) log
    = (Ok resp', log') /\
    returned resp' = returned resp /\
    figures <$> routes resp' ≡ₚ figures <$> routes resp.
Proof.
  rewrite !post_route_options_cases. intros Hpost Hp.
  destruct (parse_RouteOptionsRequest_dec cfg body) as [[Hok Hparse]|[_ Hparse]];
    rewrite Hparse in Hpost; [|done].
  destruct (parse_RouteOptionsRequest_dec cfg (with_preference p body))
    as [[_ ->]|[Hbad _]].
  2: { destruct Hok. unfold violates in *. cbn in Hbad.
       destruct Hbad as [?|[?|[(q&Hq&?)|?]]]; auto.
       rewrite (Hp q Hq) in *. done. }
  change (request_of cfg (with_preference p body)) with (request_of cfg body).
  cbn [with_preference body_origin body_destination body_preference body_k
       body_fuel_price_per_liter body_vehicle].
  destruct (upstream _) as [[]|data]; try done.
  injection Hpost as Hrank <-.
  assert (1 <= default 3 (body_k body)) as Hk.
  { destruct (body_k body) as [n|] eqn:E; cbn; [|lia].
    destruct (decide (1 <= n <= 5)); [lia|].
    destruct Hok. unfold violates. eauto 10. }
  apply rank_routes_Ok in Hrank as (d&rs&built&->&Hd&Hrs&Hloop&->); [|done].
  cbn in Hloop.
  match goal with
  | |- context [rank_routes ?r _] => rewrite (rank_routes_list r _ _ Hk Hd)
  end.
  rewrite bool_decide_eq_false_2 by done. cbn [k].
  match goal with
  | |- context [route_option_loop ?r _ _] =>
      destruct (route_option_loop_preference _ r _ _ _ Hloop eq_refl eq_refl)
        as (out'&->&Hfig)
  end.
  cbn. eexists. split; [done|]. cbn.
  rewrite !list_sort_length.
  apply (f_equal length) in Hfig as Hlen. rewrite !length_fmap in Hlen.
  split; [by rewrite Hlen|].
  by rewrite !list_sort_perm, Hfig.
Qed.

Lemma preference_changes_score_and_order_only_witness :
  exists resp resp' log',
    post_route_options sample_cfg (engine_returns crossing_routes)
      (sample_body "FASTEST" 3) [] = (Ok resp, log') /\
    post_route_options sample_cfg (engine_returns crossing_routes)
      (with_preference (Some "SHORT_DISTANCE"%string) (sample_body "FASTEST" 3))
      [] = (Ok resp', log') /\
    id_ <$> routes resp = ["r2"; "r1"]%string /\
    id_ <$> routes resp' = ["r1"; "r2"]%string /\
    figures <$> routes resp' ≡ₚ figures <$> routes resp.
Proof.
  edestruct (preference_changes_score_and_order_only sample_cfg
               (engine_returns crossing_routes) (sample_body "FASTEST" 3)
               (Some "SHORT_DISTANCE"%string) [])
    as (resp'&Hpost'&_&Hfigures).
  - vm_compute. reflexivity.
  - intros q [= <-]. reflexivity.
  - eexists _, resp', _. split; [vm_compute; reflexivity|].
    split; [exact Hpost'|].
    split; [reflexivity|]. split; [|exact Hfigures].
    vm_compute in Hpost'. by injection Hpost' as <-.
Defined.

(** Asking for fewer routes: when a call succeeds, the same call with a
    smaller [k] succeeds, and every option it returns is an option of the
    first response, identifier, figures and score. *)
Theorem fewer_routes_are_among_more cfg upstream body n log resp log' :
  post_route_options cfg upstream body log = (Ok resp, log') ->
  1 <= n <= default 3 (body_k body) ->
  exists resp',
    post_route_options cfg upstream (with_k n body) log = (Ok resp', log') /\
    returned resp' = Z.min n (returned resp) /\
    routes resp' ⊆ routes resp.
Proof.
  rewrite !post_route_options_cases. intros Hpost Hn.
  destruct (parse_RouteOptionsRequest_dec cfg body) as [[Hok Hparse]|[_ Hparse]];
    rewrite Hparse in Hpost; [|done].
  assert (1 <= default 3 (body_k body) <= 5) as Hk.
  { destruct (body_k body) as [n'|] eqn:E; cbn; [|lia].
    destruct (decide (1 <= n' <= 5)); [lia|].
    destruct Hok. unfold violates. eauto 10. }
  destruct (parse_RouteOptionsRequest_dec cfg (with_k n body))
    as [[_ ->]|[Hbad _]].
  2: { destruct Hok. unfold violates in *. cbn in Hbad.
       destruct Hbad as [?|[?|[?|[(n'&[= <-]&?)|?]]]]; auto. lia. }
  change (request_of cfg (with_k n body)) with (request_of cfg body).
  cbn [with_k body_origin body_destination body_preference body_k
       body_fuel_price_per_liter body_vehicle].
  destruct (upstream _) as [[]|data]; try done.
  injection Hpost as Hrank <-.
  apply rank_routes_Ok in Hrank as (d&rs&built&->&Hd&Hrs&Hloop&->);
    [|cbn; lia].
  cbn in Hloop.
  match goal with
  | |- context [rank_routes ?r _] =>
      rewrite (rank_routes_list r _ _ (proj1 Hn) Hd)
  end.
  rewrite bool_decide_eq_false_2 by done. cbn [k default]. unfold id.
  apply (route_option_loop_take _ _ _ _ (Z.to_nat n)) in Hloop as Hloop'.
  rewrite take_take, Nat.min_l in Hloop' by lia.
  match type of Hloop' with
  | route_option_loop ?r0 _ _ = _ =>
      match goal with
      | |- context [route_option_loop ?r _ _] =>
          rewrite (route_option_loop_ext r0 r _ _ eq_refl eq_refl eq_refl)
      end
  end.
  rewrite Hloop'. cbn. eexists. split; [done|]. cbn.
  rewrite !list_sort_length, length_take. split; [lia|].
  intros o. rewrite !list_sort_perm. apply subseteq_take.
Qed.

Lemma fewer_routes_are_among_more_witness :
  exists resp resp' log',
    post_route_options sample_cfg (engine_returns three_routes)
      (sample_body "FASTEST" 3) [] = (Ok resp, log') /\
    post_route_options sample_cfg (engine_returns three_routes)
      (with_k 2 (sample_body "FASTEST" 3)) [] = (Ok resp', log') /\
    id_ <$> routes resp = ["r3"; "r1"; "r2"]%string /\
    id_ <$> routes resp' = ["r1"; "r2"]%string /\
    returned resp' = 2 /\ routes resp' ⊆ routes resp.
Proof.
  edestruct (fewer_routes_are_among_more sample_cfg
               (engine_returns three_routes) (sample_body "FASTEST" 3) 2 [])
    as (resp'&Hpost'&Hreturned&Hsub).
  - vm_compute. reflexivity.
  - cbn. lia.
  - eexists _, resp', _. split; [vm_compute; reflexivity|].
    split; [exact Hpost'|]. split; [reflexivity|].
    split; [|split; [exact Hreturned|exact Hsub]].
    vm_compute in Hpost'. by injection Hpost' as <-.
Defined.

(** When no route has a score below the score of the route numbered
    just before it, the response is in the order of the engine:
    [r1], [r2], ... *)
Theorem engine_order_is_kept_when_in_order cfg upstream body log resp log' :
  post_route_options cfg upstream body log = (Ok resp, log') ->
  (forall j o o', o ∈ routes resp -> o' ∈ routes resp ->
     id_ o = route_id j -> id_ o' = route_id (S j) ->
     (score o' <? score o)%float = false) ->
  id_ <$> routes resp = route_id <$> seq 1 (Z.to_nat (returned resp)).
Proof.
  intros (req&d&rs&built&_&_&_&_&_&Hloop&->&_&->)%post_route_options_Ok'.
  intros Horder.
  pose proof (route_option_loop_ids _ _ _ _ Hloop) as Hids.
  pose proof (route_option_loop_length _ _ _ _ Hloop) as Hlen.
  rewrite list_sort_length, Nat2Z.id, Hlen, <-Hids.
  rewrite list_sort_in_order; [done|].
  intros i x y Hx Hy.
  assert (forall i o, built !! i = Some o -> id_ o = route_id (S i)) as Hid.
  { intros i' o Ho.
    assert ((id_ <$> built) !! i' = Some (id_ o)) as H
      by by rewrite list_lookup_fmap, Ho.
    rewrite Hids, list_lookup_fmap in H.
    destruct (seq 1 _ !! i') as [n|] eqn:E; [|done].
    apply lookup_seq in E as [-> _]. cbn in H. congruence. }
  apply (Horder (S i)); rewrite ?list_sort_perm;
    eauto using list_elem_of_lookup_2.
Qed.

Lemma engine_order_is_kept_when_in_order_witness :
  exists resp log',
    post_route_options sample_cfg (engine_returns ordered_routes)
      (sample_body "FASTEST" 3) [] = (Ok resp, log') /\
    id_ <$> routes resp = ["r1"; "r2"; "r3"]%string.
Proof.
  eexists _, _. split; [vm_compute; reflexivity|].
  eapply (engine_order_is_kept_when_in_order sample_cfg
            (engine_returns ordered_routes) (sample_body "FASTEST" 3) []).
  - vm_compute. reflexivity.
  - intros j o o' Ho Ho' Hj HSj. cbn [routes] in Ho, Ho'.
    repeat (apply elem_of_cons in Ho as [->|Ho]);
      [..|by apply elem_of_nil in Ho];
      cbn [id_] in Hj;
      [change "r1"%string with (route_id 1) in Hj
      |change "r2"%string with (route_id 2) in Hj
      |change "r3"%string with (route_id 3) in Hj];
      apply route_id_inj in Hj; subst j;
      (repeat (apply elem_of_cons in Ho' as [->|Ho']);
       [..|by apply elem_of_nil in Ho']);
      cbn [id_] in HSj;
      first [reflexivity
            |change "r1"%string with (route_id 1) in HSj;
             by apply route_id_inj in HSj
            |change "r2"%string with (route_id 2) in HSj;
             by apply route_id_inj in HSj
            |change "r3"%string with (route_id 3) in HSj;
             by apply route_id_inj in HSj].
Defined.

(** When no score is a NaN, routes of equal score come in the order of
    their identifiers: of two options with equal scores, the first in the
    response has the smaller number. *)
Theorem equal_scores_keep_the_order_of_identifiers
  cfg upstream body log resp log' i j o o' :
  post_route_options cfg upstream body log = (Ok resp, log') ->
  Forall (fun o => is_nan (score o) = false) (routes resp) ->
  routes resp !! i = Some o -> routes resp !! j = Some o' -> (i < j)%nat ->
  (score o =? score o')%float = true ->
  exists a b, id_ o = route_id a /\ id_ o' = route_id b /\ (a < b)%nat.
Proof.
  intros (req&d&rs&built&_&_&_&_&_&Hloop&->&_)%post_route_options_Ok'.
  intros _ Hi Hj Hlt Heq.
  pose proof (lookup_pair_sublist _ _ _ _ _ Hi Hj Hlt) as Hsub.
  assert ((score o' =? score o')%float = true) as Heq'.
  { apply eqb_frank in Heq as (a&b&_&Hb&_). apply eqb_frank.
    exists b, b. split_and!; [done..|apply lex3_refl]. }
  apply (sublist_filter_pair (fun x => score x =? score o')%float) in Hsub;
    [|done..].
  rewrite list_sort_filter in Hsub.
  pose proof (filter_sublist (fun x => score x =? score o')%float built) as Hf.
  assert ([o; o'] `sublist_of` built) as Hb by by etrans.
  apply (fmap_sublist id_) in Hb.
  rewrite (route_option_loop_ids _ _ _ _ Hloop) in Hb. cbn in Hb.
  destruct (sublist_pair_seq _ _ _ _ _ Hb) as (a&b&?&?&?). exists a, b.
  split_and!; [done..|lia].
Qed.

Lemma equal_scores_keep_the_order_of_identifiers_witness :
  exists resp log' o o',
    post_route_options sample_cfg (engine_returns three_routes)
      (body_price "CHEAPEST" 0) [] = (Ok resp, log') /\
    routes resp !! 0%nat = Some o /\ routes resp !! 2%nat = Some o' /\
    (id_ o, score o) = ("r1"%string, 0%float) /\
    (id_ o', score o') = ("r3"%string, 0%float) /\
    exists a b, id_ o = route_id a /\ id_ o' = route_id b /\ (a < b)%nat.
Proof.
  eexists _, _, _, _. split; [vm_compute; reflexivity|].
  split; [reflexivity|]. split; [reflexivity|].
  split; [reflexivity|]. split; [reflexivity|].
  eapply (equal_scores_keep_the_order_of_identifiers sample_cfg
            (engine_returns three_routes) (body_price "CHEAPEST" 0) []
            _ _ 0%nat 2%nat).
  - vm_compute. reflexivity.
  - by repeat constructor.
  - reflexivity.
  - reflexivity.
  - lia.
  - reflexivity.
Defined.

(** ** Figures that are numbers *)

(** With defaults that satisfy the constraints, when the distances and
    durations of the first [k] candidates are finite floats, or ints
    below [2^53], no score is a NaN and the response is in ascending
    order of score. *)
Theorem finite_figures_are_ranked
  cfg upstream body log resp log' d rs :
  Config_valid cfg ->
  post_route_options cfg upstream body log = (Ok resp, log') ->
  upstream (request_of cfg body) = Returns (JDict d) ->
  d !! "routes" = Some (JList rs) ->
  Forall finite_candidate (take (Z.to_nat (requested resp)) rs) ->
  Forall (fun o => is_nan (score o) = false) (routes resp) /\
  ascending (routes resp).
Proof.
  intros Hcfg Hpost Hup Hd Hfin.
  assert (Forall (fun o => is_nan (score o) = false) (routes resp)) as Hnan.
  2: { split; [done|].
       apply post_route_options_Ok' in Hpost
         as (req&d'&rs'&built&_&_&_&_&_&Hloop&Hroutes&_).
       rewrite Hroutes in *. apply list_sort_sorted.
       by rewrite <-(list_sort_perm score built). }
  rewrite post_route_options_cases in Hpost.
  destruct (parse_RouteOptionsRequest cfg body) as [req|] eqn:Hparse; [|done].
  rewrite Hup in Hpost. injection Hpost as Hrank <-.
  pose proof (parse_RouteOptionsRequest_Ok _ _ _ Hparse) as (_&_&_&_&Hk&_).
  pose proof (parse_RouteOptionsRequest_valid _ _ _ Hcfg Hparse) as [Hr Hp].
  apply rank_routes_Ok in Hrank as (d'&rs'&built&[= <-]&Hd'&_&Hloop&->);
    [|lia].
  assert (rs' = rs) as -> by congruence. cbn in *.
  apply Forall_forall. intros o Ho. rewrite list_sort_perm in Ho.
  destruct (route_option_loop_elem _ _ _ _ _ Hloop Ho) as (j&rt&Hj&Hrt&_&Hro).
  eapply route_option_score_not_nan; [done..| |done].
  eapply Forall_forall; [exact Hfin|].
  apply list_elem_of_lookup. exists j. by apply lookup_take_Some.
Qed.

Lemma finite_figures_are_ranked_witness :
  exists resp log',
    post_route_options sample_cfg (engine_returns three_routes)
      (sample_body "CHEAPEST" 3) [] = (Ok resp, log') /\
    score <$> routes resp = [5501.3625; 5760.45; 6975]%float /\
    Forall (fun o => is_nan (score o) = false) (routes resp) /\
    ascending (routes resp).
Proof.
  eexists _, _. split; [vm_compute; reflexivity|]. split; [reflexivity|].
  eapply (finite_figures_are_ranked sample_cfg (engine_returns three_routes)
            (sample_body "CHEAPEST" 3) []).
  - split; [reflexivity|done].
  - vm_compute. reflexivity.
  - reflexivity.
  - reflexivity.
  - repeat constructor; intros c v [= <-] [H|H]; vm_compute in H;
      injection H as <-; vm_compute; reflexivity.
Defined.



(** Distances and durations that are finite and not negative give
    figures that are not negative: no figure of the response is negative
    or a NaN. *)
Theorem nonnegative_figures cfg upstream body log resp log' d rs :
  Config_valid cfg ->
  post_route_options cfg upstream body log = (Ok resp, log') ->
  upstream (request_of cfg body) = Returns (JDict d) ->
  d !! "routes" = Some (JList rs) ->
  Forall finite_candidate (take (Z.to_nat (requested resp)) rs) ->
  Forall nonneg_candidate (take (Z.to_nat (requested resp)) rs) ->
  Forall (fun o =>
    (0 <=? distance_km o)%float = true /\ (0 <=? duration_min o)%float = true /\
    (0 <=? fuel_liters o)%float = true /\ (0 <=? fuel_cost_cop o)%float = true /\
    (0 <=? score o)%float = true) (routes resp).
Proof.
  intros Hcfg Hpost Hup Hd Hfin Hnonneg.
  rewrite post_route_options_cases in Hpost.
  destruct (parse_RouteOptionsRequest cfg body) as [req|] eqn:Hparse; [|done].
  rewrite Hup in Hpost. injection Hpost as Hrank <-.
  pose proof (parse_RouteOptionsRequest_Ok _ _ _ Hparse) as (_&_&_&_&Hk&_).
  pose proof (parse_RouteOptionsRequest_valid _ _ _ Hcfg Hparse) as [Hr Hp].
  apply rank_routes_Ok in Hrank as (d'&rs'&built&[= <-]&Hd'&_&Hloop&->);
    [|lia].
  assert (rs' = rs) as -> by congruence. cbn in *.
  apply Forall_forall. intros o Ho. rewrite list_sort_perm in Ho.
  destruct (route_option_loop_elem _ _ _ _ _ Hloop Ho) as (j&rt&Hj&Hrt&_&Hro).
  assert (rt ∈ take (Z.to_nat (k req)) rs) as Hin.
  { apply list_elem_of_lookup. exists j. by apply lookup_take_Some. }
  eapply route_option_nonneg; [done..| | |done].
  - eapply Forall_forall; [exact Hfin|done].
  - eapply Forall_forall; [exact Hnonneg|done].
Qed.

Lemma nonnegative_figures_witness :
  exists resp log',
    post_route_options sample_cfg (engine_returns three_routes)
      (sample_body "LOW_FUEL" 3) [] = (Ok resp, log') /\
    Forall (fun o =>
      (0 <=? distance_km o)%float = true /\
      (0 <=? duration_min o)%float = true /\
      (0 <=? fuel_liters o)%float = true /\
      (0 <=? fuel_cost_cop o)%float = true /\
      (0 <=? score o)%float = true) (routes resp).
Proof.
  eexists _, _. split; [vm_compute; reflexivity|].
  eapply (nonnegative_figures sample_cfg (engine_returns three_routes)
            (sample_body "LOW_FUEL" 3) []).
  - split; [reflexivity|done].
  - vm_compute. reflexivity.
  - reflexivity.
  - reflexivity.
  - repeat constructor; intros c v [= <-] [H|H]; vm_compute in H;
      injection H as <-; vm_compute; reflexivity.
  - repeat constructor; intros c v [= <-] [H|H]; vm_compute in H;
      injection H as <-; vm_compute; done.
Defined.

(** ** The diagnostic operations *)

(** [GET /osrm-test] issues one request, for its two fixed places, and
    answers with the length of [routes]: [0] when the list is empty or
    missing, where [POST /route-options] raises 404.  A connection error
    is the error 502 of [osrm_get_routes], and it raises no other HTTP
    error than 502. *)
Theorem osrm_test_counts_routes cfg upstream log :
  (osrm_test cfg upstream log).2 = log ++ [osrm_test_request cfg] /\
  (forall d rs,
     upstream (osrm_test_request cfg) = Returns (JDict d) ->
     default (JList []) (d !! "routes") = JList rs ->
     (osrm_test cfg upstream log).1 =
     Ok (JDict {[ "ok" := JBool true;
                  "routes_found" := JInt (Z.of_nat (length rs)) ]})) /\
  (forall e,
     upstream (osrm_test_request cfg) = Raises (ConnectionError e) ->
     (osrm_test cfg upstream log).1 =
     Raise (HTTPException 502
              ("No hay conexión con OSRM en " +:+ OSRM_BASE_URL cfg
               +:+ ". Verifica que OSRM esté activo."))) /\
  (forall status detail,
     (osrm_test cfg upstream log).1 = Raise (HTTPException status detail) ->
     status = 502).
Proof.
  unfold osrm_test, osrm_get_routes, fetch_json, mbind, IO_bind, pure.
  fold (osrm_test_request cfg).
  destruct (upstream (osrm_test_request cfg)) as [[]|data]; cbn;
    split_and!; try done.
  - intros status detail H. by injection H as <- _.
  - intros status detail H. by injection H as <- _.
  - intros d rs [= ->] Hrs. cbn. by rewrite Hrs.
  - intros status detail H.
    destruct data as [| | | | | |d]; try done. cbn in H.
    destruct (default _ _); done.
Qed.

(** [GET /health] issues no request and cannot fail; the address it
    reports is the address of every request the two other operations
    issue. *)
Theorem health_reports_the_address_in_use cfg upstream body log :
  exists h,
    health cfg log = (Ok (JDict h), log) /\
    h !! "ok" = Some (JBool true) /\
    forall rq,
      rq ∈ drop (length log) (post_route_options cfg upstream body log).2 \/
      rq ∈ drop (length log) (osrm_test cfg upstream log).2 ->
      h !! "osrm_base_url" = Some (JStr (url_base rq)).
Proof.
  eexists. split; [reflexivity|]. split; [reflexivity|].
  intros rq [Hrq|Hrq].
  - rewrite post_route_options_cases in Hrq.
    destruct (parse_RouteOptionsRequest cfg body); cbn [snd] in Hrq.
    + rewrite drop_app_length in Hrq. by apply list_elem_of_singleton in Hrq as ->.
    + rewrite drop_all in Hrq. by apply elem_of_nil in Hrq.
  - rewrite osrm_test_log, drop_app_length in Hrq.
    by apply list_elem_of_singleton in Hrq as ->.
Qed.
